(** * The document loaders of [loaders.py]

    A shallow embedding of the four loader classes ([AudioLoader],
    [TextDocumentLoader], [WebpageLoader], [YoutubeTranscriptLoader]), of
    the two scripts that use them, and of the properties their
    specification states about them.

    Python values are modelled as follows.
    - A [str] is a sequence of Unicode code points, each a number; a string
      literal of this file stands for the code points of its ASCII
      characters.
    - An exception is a class together with the text [str(e)] yields.  Every
      exception of the model is an instance of Python's [Exception];
      asynchronous interrupts ([KeyboardInterrupt], [SystemExit]) are outside
      the model.
    - Every method runs in a monad that threads the observable state (the
      sequence of calls made to the outside world, and the file system) and
      either returns a value or raises.
    - The outside world (pytube, youtube_transcript_api, the generative
      model, the langchain loaders, the outcome of opening and writing a
      file) is a record of answers, [World], one per call of a loader. *)

From Stdlib Require Import String Ascii NArith QArith DecimalString.
From stdpp Require Import base option list gmap.

(** ** Python strings *)

Abbreviation codepoint := N (only parsing).

Abbreviation str := (list N).

(** What a string literal is read into: its bytes, which must all be ASCII,
    as code points. *)
Inductive literal : Type :=
  | LNil
  | LCons (c : N) (s : literal).

Fixpoint literal_of_bytes (bytes : list Byte.byte) : option literal :=
  match bytes with
  | nil => Some LNil
  | cons b bytes' =>
      if (Byte.to_N b <? 128)%N then
        match literal_of_bytes bytes' with
        | Some s => Some (LCons (Byte.to_N b) s)
        | None => None
        end
      else None
  end.

Fixpoint bytes_of_literal (s : literal) : option (list Byte.byte) :=
  match s with
  | LNil => Some nil
  | LCons c s' =>
      if (c <? 128)%N then
        match Byte.of_N c, bytes_of_literal s' with
        | Some b, Some bytes => Some (cons b bytes)
        | _, _ => None
        end
      else None
  end.

(** The type of the literals. *)
Definition literal_type : Type := list N.

Declare Scope str_scope.
Delimit Scope str_scope with str.

#[warnings="-via-type-mismatch,-via-type-remapping"]
String Notation literal_type literal_of_bytes bytes_of_literal
  (via literal mapping [[nil] => LNil, [cons] => LCons]) : str_scope.

Local Open Scope list_scope.
Local Open Scope str_scope.

(** [a + b] on strings. *)
Definition cat (a b : str) : str := a ++ b.
Arguments cat : simpl never.

Infix "+:+" := cat (at level 60, right associativity) : str_scope.

Module Py.

(** The line feed, ['\n']. *)
Definition LF : codepoint := 0xA%N.
Definition nl : str := [LF].

(** [str.isspace] on one code point, the set [str.strip] removes:
    U+0009..U+000D, U+001C..U+0020, U+0085, U+00A0, U+1680, U+2000..U+200A,
    U+2028, U+2029, U+202F, U+205F and U+3000. *)
Definition is_space (c : codepoint) : bool :=
  (((0x9 <=? c) && (c <=? 0xD)) || ((0x1C <=? c) && (c <=? 0x20))
   || (c =? 0x85) || (c =? 0xA0) || (c =? 0x1680)
   || ((0x2000 <=? c) && (c <=? 0x200A)) || (c =? 0x2028) || (c =? 0x2029)
   || (c =? 0x202F) || (c =? 0x205F) || (c =? 0x3000))%N.

(** [a == b] *)
Fixpoint eqb (a b : str) : bool :=
  match a, b with
  | [], [] => true
  | x :: a', y :: b' => N.eqb x y && eqb a' b'
  | _, _ => false
  end.

(** [s.lstrip()] *)
Fixpoint lstrip (s : str) : str :=
  match s with
  | [] => []
  | c :: s' => if is_space c then lstrip s' else s
  end.

(** [s.rstrip()] *)
Fixpoint rstrip (s : str) : str :=
  match s with
  | [] => []
  | c :: s' =>
      match rstrip s' with
      | [] => if is_space c then [] else [c]
      | r => c :: r
      end
  end.

(** [s.strip()] *)
Definition strip (s : str) : str := rstrip (lstrip s).

(** [not s.strip()]: the string is empty or holds white space only. *)
Fixpoint blank (s : str) : bool :=
  match s with
  | [] => true
  | c :: s' => is_space c && blank s'
  end.

(** [s.split('\n')]: the pieces between line feeds, empty pieces kept; never
    the empty list. *)
Fixpoint split_lines (s : str) : list str :=
  match s with
  | [] => [[]]
  | c :: s' =>
      if N.eqb c LF then [] :: split_lines s'
      else match split_lines s' with
           | h :: t => (c :: h) :: t
           | [] => [[c]]
           end
  end.

(** [sep.join(l)] *)
Fixpoint join (sep : str) (l : list str) : str :=
  match l with
  | [] => []
  | x :: l' =>
      match l' with
      | [] => x
      | _ :: _ => x +:+ sep +:+ join sep l'
      end
  end.

(** [s.startswith(p)] *)
Fixpoint startswith (s p : str) {struct p} : bool :=
  match p with
  | [] => true
  | a :: p' =>
      match s with
      | [] => false
      | b :: s' => N.eqb a b && startswith s' p'
      end
  end.

Arguments startswith : simpl never.

(** [s.startswith((p1, p2, ...))] *)
Definition startswith_any (s : str) (ps : list str) : bool :=
  existsb (startswith s) ps.

(** [s.endswith(p)]: [p] is not longer than [s] and equals its last
    [len(p)] code points. *)
Definition endswith (s p : str) : bool :=
  (length p <=? length s)%nat
  && eqb (drop (length s - length p) s) p.

Arguments endswith : simpl never.

(** Truth value of a [str]: the empty string is false. *)
Definition truthy (s : str) : bool := negb (eqb s []).

(** Truth value of an optional [str] ([None] is false). *)
Definition truthy_opt (o : option str) : bool :=
  match o with
  | Some s => truthy s
  | None => false
  end.

(** The code points of a text made of ASCII characters, such as the
    decimal digits of a number. *)
Fixpoint of_ascii_text (s : string) : str :=
  match s with
  | EmptyString => []
  | String a s' => N_of_ascii a :: of_ascii_text s'
  end.

End Py.

(** ** Exceptions *)

Inductive ExcClass : Type :=
  | TranscriptsDisabled
  | NoTranscriptFound
  | DocumentLoaderError
  | TranscriptionError
  | OtherException (name : str).

Record PyExc : Type := MkExc { exc_class : ExcClass; exc_msg : str }.

Definition is_NoTranscriptFound (e : PyExc) : bool :=
  match exc_class e with
  | NoTranscriptFound => true
  | _ => false
  end.

Definition is_transcript_error (e : PyExc) : bool :=
  match exc_class e with
  | TranscriptsDisabled | NoTranscriptFound => true
  | _ => false
  end.

(** What an operation yields: a value, or a raised exception. *)
Inductive outcome (A : Type) : Type :=
  | Return (a : A)
  | Raise (e : PyExc).
Arguments Return {A} a.
Arguments Raise {A} e.

(** ** Data model *)

(** A caption segment, the dict [{'text': ..., 'start': ..., 'duration': ...}]
    of youtube_transcript_api.  The timing entries are floats; the loaders
    never compute with them, so a rational stands for each.  An absent key is
    [None]. *)
Record Segment : Type := MkSegment {
  text : str;
  start : option Q;
  duration : option Q
}.

(** A langchain [Document]. *)
Record Document : Type := MkDocument {
  page_content : str;
  metadata : list (str * str)
}.

(** A caption track ([Transcript] of youtube_transcript_api) with what its
    [fetch()] yields. *)
Record Transcript : Type := MkTranscript {
  language_code : str;
  is_generated : bool;
  fetch_result : outcome (list Segment)
}.

(** The [TranscriptList] of a video: two dicts keyed by language code. *)
Record TranscriptList : Type := MkTranscriptList {
  video_id : str;
  manually_created_transcripts : gmap str Transcript;
  generated_transcripts : gmap str Transcript
}.

(** The response of [gemini.generate_content]; its [.text] accessor can
    raise. *)
Record GenerateContentResponse : Type := MkResponse {
  response_text : outcome str
}.

(** The dict a [load] returns, one shape per loader. *)
Inductive LoadResult : Type :=
  | AudioResult (text : str) (metadata : list (str * str))
  | TextResult (content : list Document)
  | PdfResult (pages : list Document) (page_count : nat)
  | WebResult (content : str)
  | VideoResult (transcript : str).

(** ** Observable state *)

Inductive LogLevel : Type := INFO | ERROR.

Inductive Event : Type :=
  | CallVideoId (url : str)
  | CallListTranscripts (vid : str)
  | CallFetch (lang : str) (generated : bool)
  | CallGenerateContent (prompt : str)
  | CallWebBaseLoader (url : str)
  | CallAssemblyAI (file_path key : str)
  | CallPyPDFLoader (file_path : str)
  | CallTextLoader (file_path : str)
  | FileOpenW (path : str)
  | FileWrite (path data : str)
  | Log (logger : str) (level : LogLevel) (msg : str).

(** The calls that go over the network.  [extract.video_id] of pytube is a
    regular-expression search on the URL and stays local. *)
Definition is_network (ev : Event) : bool :=
  match ev with
  | CallListTranscripts _ | CallFetch _ _ | CallGenerateContent _
  | CallWebBaseLoader _ | CallAssemblyAI _ _ => true
  | _ => false
  end.

Definition is_generate_content (ev : Event) : bool :=
  match ev with
  | CallGenerateContent _ => true
  | _ => false
  end.

Record State : Type := MkState {
  trace : list Event;
  files : gmap str str
}.

(** The state once the events [evs] have happened, the files left alone. *)
Definition after (s : State) (evs : list Event) : State :=
  {| trace := trace s ++ evs; files := files s |}.

(** ** The outside world *)

Record World : Type := MkWorld {
  (** [os.environ], after [load_dotenv()] *)
  environ : gmap str str;
  (** [pytube.extract.video_id(url)] *)
  extract_video_id : str -> outcome (option str);
  (** [YouTubeTranscriptApi.list_transcripts(video_id)] *)
  list_transcripts : str -> outcome TranscriptList;
  (** [str] of the [NoTranscriptFound] raised for a video and the requested
      language codes *)
  no_transcript_found_msg : str -> list str -> str;
  (** [gemini.generate_content(prompt)] *)
  generate_content : str -> outcome GenerateContentResponse;
  (** [WebBaseLoader(url).load()] *)
  web_base_loader_load : str -> outcome (list Document);
  (** [AssemblyAIAudioTranscriptLoader(file_path, api_key).load()] *)
  assemblyai_load : str -> str -> outcome (list Document);
  (** [PyPDFLoader(file_path).load_and_split()] *)
  pypdf_load_and_split : str -> outcome (list Document);
  (** [TextLoader(file_path).load()] *)
  text_loader_load : str -> outcome (list Document);
  (** the exception of [open(path, "w", encoding='utf-8')], if it fails *)
  open_w_error : str -> option PyExc;
  (** the exception of [file.write(data)], if it fails *)
  write_error : str -> str -> option PyExc
}.

(** ** The monad of loader methods *)

Definition M (A : Type) : Type := State -> outcome A * State.

Definition ret {A} (a : A) : M A := fun s => (Return a, s).

Definition raise {A} (e : PyExc) : M A := fun s => (Raise e, s).

Definition bind {A B} (m : M A) (k : A -> M B) : M B :=
  fun s =>
    match m s with
    | (Return a, s') => k a s'
    | (Raise e, s') => (Raise e, s')
    end.

Notation "x <-- m ;; k" := (bind m (fun x => k))
  (at level 100, m at next level, right associativity).
Notation "m ;;; k" := (bind m (fun _ => k))
  (at level 100, right associativity).

(** [try: m except Exception as e: h e] *)
Definition try_except {A} (m : M A) (h : PyExc -> M A) : M A :=
  fun s =>
    match m s with
    | (Return a, s') => (Return a, s')
    | (Raise e, s') => h e s'
    end.

Definition lift {A} (o : outcome A) : M A := fun s => (o, s).

Definition emit (ev : Event) : M unit :=
  fun s => (Return tt, after s [ev]).

(** A call to a collaborator: recorded, then its answer. *)
Definition call {A} (ev : Event) (o : outcome A) : M A := emit ev ;;; lift o.

(** [l[0]] *)
Definition index0 {A} (l : list A) : M A :=
  match l with
  | x :: _ => ret x
  | [] => raise (MkExc (OtherException "IndexError") "list index out of range")
  end.

(** [open(path, "w", encoding='utf-8')]: the file is truncated. *)
Definition open_w (w : World) (path : str) : M unit :=
  emit (FileOpenW path) ;;;
  match open_w_error w path with
  | Some e => raise e
  | None =>
      fun s => (Return tt,
                {| trace := trace s; files := <[path := []]> (files s) |})
  end.

(** [file.write(data)] on a file opened by [open_w]. *)
Definition write (w : World) (path data : str) : M unit :=
  emit (FileWrite path data) ;;;
  match write_error w path data with
  | Some e => raise e
  | None =>
      fun s => (Return tt,
                {| trace := trace s;
                   files := <[path := default [] (files s !! path) +:+ data]>
                              (files s) |})
  end.

(** ** The collaborator youtube_transcript_api

    [TranscriptList.find_transcript] and [find_generated_transcript] look the
    requested language codes up in order, each code in the given dicts in
    order, and raise [NoTranscriptFound] when none is there. *)

Module TranscriptApi.

Fixpoint lookup_dicts (code : str) (dicts : list (gmap str Transcript))
  : option Transcript :=
  match dicts with
  | [] => None
  | d :: ds =>
      match d !! code with
      | Some t => Some t
      | None => lookup_dicts code ds
      end
  end.

Fixpoint first_match (language_codes : list str)
    (dicts : list (gmap str Transcript)) : option Transcript :=
  match language_codes with
  | [] => None
  | c :: cs =>
      match lookup_dicts c dicts with
      | Some t => Some t
      | None => first_match cs dicts
      end
  end.

Definition _find_transcript (w : World) (tl : TranscriptList)
    (language_codes : list str) (dicts : list (gmap str Transcript))
  : outcome Transcript :=
  match first_match language_codes dicts with
  | Some t => Return t
  | None =>
      Raise (MkExc NoTranscriptFound
               (no_transcript_found_msg w (video_id tl) language_codes))
  end.

Definition find_transcript (w : World) (tl : TranscriptList)
    (language_codes : list str) : outcome Transcript :=
  _find_transcript w tl language_codes
    [manually_created_transcripts tl; generated_transcripts tl].

Definition find_generated_transcript (w : World) (tl : TranscriptList)
    (language_codes : list str) : outcome Transcript :=
  _find_transcript w tl language_codes [generated_transcripts tl].

(** [transcript.fetch()] *)
Definition fetch (t : Transcript) : M (list Segment) :=
  call (CallFetch (language_code t) (is_generated t)) (fetch_result t).

End TranscriptApi.

(** ** The loaders *)

Definition log (logger : str) (level : LogLevel) (msg : str) : M unit :=
  emit (Log logger level msg).

Definition mk_error (c : ExcClass) (msg : str) : PyExc := MkExc c msg.

Module AudioLoader.

Record t : Type := Mk { api_key : str }.

Definition logger : str := "AudioLoader".

(** [api_key or os.getenv("ASSEMBLY_API_KEY")] *)
Definition api_key_or_env (w : World) (key : option str) : option str :=
  if Py.truthy_opt key then key else environ w !! "ASSEMBLY_API_KEY".

Definition __init__ (w : World) (key : option str) : M t :=
  match api_key_or_env w key with
  | Some k =>
      if Py.truthy k then ret (Mk k)
      else raise (mk_error DocumentLoaderError "Assembly AI API key not found")
  | None => raise (mk_error DocumentLoaderError "Assembly AI API key not found")
  end.

Definition load (w : World) (self : t) (file_path : str) : M LoadResult :=
  try_except
    (docs <-- call (CallAssemblyAI file_path (api_key self))
                   (assemblyai_load w file_path (api_key self)) ;;
     d <-- index0 docs ;;
     ret (AudioResult (page_content d) (metadata d)))
    (fun e =>
       raise (mk_error DocumentLoaderError
                ("Error transcribing audio: " +:+ exc_msg e))).

End AudioLoader.

Module TextDocumentLoader.

Definition _load_pdf (w : World) (file_path : str) : M LoadResult :=
  pages <-- call (CallPyPDFLoader file_path) (pypdf_load_and_split w file_path) ;;
  ret (PdfResult pages (length pages)).

Definition _load_text (w : World) (file_path : str) : M LoadResult :=
  data <-- call (CallTextLoader file_path) (text_loader_load w file_path) ;;
  ret (TextResult data).

Definition load (w : World) (file_path : str) : M LoadResult :=
  try_except
    (if Py.endswith file_path ".pdf" then _load_pdf w file_path
     else _load_text w file_path)
    (fun e =>
       raise (mk_error DocumentLoaderError
                ("Error loading document: " +:+ exc_msg e))).

End TextDocumentLoader.

Module WebpageLoader.

(** The fixed sink, ["output.txt"]. *)
Definition sink : str := "output.txt".

Definition load (w : World) (url : str) : M LoadResult :=
  if negb (Py.startswith_any url ["http://"; "https://"]) then
    raise (mk_error DocumentLoaderError "Invalid URL format")
  else
    try_except
      (docs <-- call (CallWebBaseLoader url) (web_base_loader_load w url) ;;
       d <-- index0 docs ;;
       let content := Py.strip (page_content d) in
       open_w w sink ;;;
       write w sink content ;;;
       write w sink (Py.nl +:+ Py.nl) ;;;
       ret (WebResult content))
      (fun e =>
         raise (mk_error DocumentLoaderError
                  ("Error loading webpage: " +:+ exc_msg e))).

End WebpageLoader.

Module YoutubeTranscriptLoader.

Definition logger : str := "YoutubeTranscriptLoader".

Definition candidates : list str :=
  ["en"; "ja"; "ko"; "es"; "fr"; "de"; "hi"].

Definition instruction : str :=
  "Translate the following transcript into English:" +:+ Py.nl.

Definition _get_video_id (w : World) (url : str) : M (option str) :=
  try_except
    (call (CallVideoId url) (extract_video_id w url))
    (fun e =>
       log logger ERROR ("Error extracting video ID: " +:+ exc_msg e) ;;;
       ret None).

(** The list comprehension of [_translate_transcript]: the lines that are
    not blank, each as a segment with a text only. *)
Definition rebuild (translated_text : str) : list Segment :=
  map (fun line => MkSegment line None None)
      (List.filter (fun line => Py.truthy (Py.strip line))
                   (Py.split_lines translated_text)).

Definition _translate_transcript (w : World) (transcript : list Segment)
  : M (option (list Segment)) :=
  try_except
    (let full_text := Py.join " " (map text transcript) in
     let prompt := instruction +:+ full_text in
     response <-- call (CallGenerateContent prompt) (generate_content w prompt) ;;
     raw <-- lift (response_text response) ;;
     let translated_text := Py.strip raw in
     ret (Some (rebuild translated_text)))
    (fun e =>
       log logger ERROR ("Translation error: " +:+ exc_msg e) ;;;
       ret None).

Definition _handle_non_english_transcript (w : World) (tl : TranscriptList)
  : M (option (list Segment)) :=
  try_except
    (available_transcript <--
       lift (TranscriptApi.find_generated_transcript w tl candidates) ;;
     (* a [Transcript] object is always true *)
     log logger INFO "Found non-English transcript. Translating..." ;;;
     segments <-- TranscriptApi.fetch available_transcript ;;
     _translate_transcript w segments)
    (fun e =>
       log logger ERROR
         ("Error handling non-English transcript: " +:+ exc_msg e) ;;;
       ret None).

Definition _fetch_transcript (w : World) (vid : str)
  : M (option (list Segment)) :=
  try_except
    (transcript_list <--
       call (CallListTranscripts vid) (list_transcripts w vid) ;;
     try_except
       (transcript <-- lift (TranscriptApi.find_transcript w transcript_list ["en"]) ;;
        segments <-- TranscriptApi.fetch transcript ;;
        ret (Some segments))
       (fun e =>
          if is_NoTranscriptFound e
          then _handle_non_english_transcript w transcript_list
          else raise e))
    (fun e =>
       if is_transcript_error e
       then log logger ERROR ("Transcript error: " +:+ exc_msg e) ;;; ret None
       else log logger ERROR ("Unexpected error: " +:+ exc_msg e) ;;; ret None).

Definition load (w : World) (video_url : str) : M LoadResult :=
  video_id <-- _get_video_id w video_url ;;
  match video_id with
  | None => raise (mk_error DocumentLoaderError "Invalid YouTube URL")
  | Some vid =>
      if negb (Py.truthy vid) then
        raise (mk_error DocumentLoaderError "Invalid YouTube URL")
      else
        transcript <-- _fetch_transcript w vid ;;
        match transcript with
        | None | Some [] =>
            raise (mk_error TranscriptionError "No transcript available")
        | Some entries =>
            ret (VideoResult (Py.join " " (map text entries)))
        end
  end.

End YoutubeTranscriptLoader.

(** ** Properties named by the specification *)

Import YoutubeTranscriptLoader.

(** The prompt the translation step sends for the segments of a track. *)
Definition prompt_of (segments : list Segment) : str :=
  instruction +:+ Py.join " " (map text segments).

(** The exception that makes the translation step fail, if any: the model
    call raises, or reading the text of its response does. *)
Definition translation_failure (w : World) (segments : list Segment)
  : option PyExc :=
  match generate_content w (prompt_of segments) with
  | Raise e => Some e
  | Return response =>
      match response_text response with
      | Raise e => Some e
      | Return _ => None
      end
  end.

(** The text the model returns for the segments of a track, if the
    translation step does not fail. *)
Definition translation_text (w : World) (segments : list Segment)
  : option str :=
  match generate_content w (prompt_of segments) with
  | Raise _ => None
  | Return response =>
      match response_text response with
      | Raise _ => None
      | Return raw => Some raw
      end
  end.

(** The track list has an English track, manual or generated, and [t] is the
    one [find_transcript(['en'])] picks: the manual one when both exist. *)
Definition english_track (tl : TranscriptList) (t : Transcript) : Prop :=
  manually_created_transcripts tl !! "en" = Some t
  \/ (manually_created_transcripts tl !! "en" = None
      /\ generated_transcripts tl !! "en" = Some t).

(** The track list has no English track, of either origin. *)
Definition no_english_track (tl : TranscriptList) : Prop :=
  manually_created_transcripts tl !! "en" = None
  /\ generated_transcripts tl !! "en" = None.

(** [t] is the generated track of the first candidate language that has
    one. *)
Definition generated_candidate (tl : TranscriptList) (t : Transcript) : Prop :=
  TranscriptApi.first_match candidates [generated_transcripts tl] = Some t.

(** A segment rebuilt from a translated line: no timing, a text that is not
    blank. *)
Definition untimed_nonblank (seg : Segment) : Prop :=
  start seg = None /\ duration seg = None /\ Py.blank (text seg) = false.

(** The calls of [load] on a video that has to be translated, before the
    model is asked. *)
Definition before_translation (url vid : str) (t : Transcript)
  : list Event :=
  [CallVideoId url; CallListTranscripts vid;
   Log logger INFO "Found non-English transcript. Translating...";
   CallFetch (language_code t) (is_generated t)].

Definition is_error_log (ev : Event) : bool :=
  match ev with
  | Log _ ERROR _ => true
  | _ => false
  end.

(** The three ways a video has no usable transcript: the captions are
    disabled; the track list has neither an English track nor a generated
    track of a candidate language; the track that was found could not be
    translated. *)
Inductive Unavailable (w : World) (vid : str) : Prop :=
  | captions_disabled (e : PyExc) :
      list_transcripts w vid = Raise e ->
      exc_class e = TranscriptsDisabled ->
      Unavailable w vid
  | no_track_found (tl : TranscriptList) :
      list_transcripts w vid = Return tl ->
      manually_created_transcripts tl !! "en" = None ->
      Forall (fun c => generated_transcripts tl !! c = None) candidates ->
      Unavailable w vid
  | translation_fails (tl : TranscriptList) (t : Transcript)
      (segments : list Segment) (e : PyExc) :
      list_transcripts w vid = Return tl ->
      no_english_track tl ->
      generated_candidate tl t ->
      fetch_result t = Return segments ->
      translation_failure w segments = Some e ->
      Unavailable w vid.

(** The two ways the pipeline ends with an empty segment sequence although
    no step failed: the English track has no segment; the text of the model
    is blank. *)
Inductive EmptyPipeline (w : World) (vid : str) : Prop :=
  | empty_track (tl : TranscriptList) (t : Transcript) :
      list_transcripts w vid = Return tl ->
      english_track tl t ->
      fetch_result t = Return [] ->
      EmptyPipeline w vid
  | blank_translation (tl : TranscriptList) (t : Transcript)
      (segments : list Segment) (raw : str) :
      list_transcripts w vid = Return tl ->
      no_english_track tl ->
      generated_candidate tl t ->
      fetch_result t = Return segments ->
      translation_text w segments = Some raw ->
      Py.blank raw = true ->
      EmptyPipeline w vid.

(** No identifier comes out of the URL: the extractor raises, or yields
    [None] or the empty string. *)
Definition no_identifier (w : World) (url : str) : Prop :=
  (exists e, extract_video_id w url = Raise e)
  \/ extract_video_id w url = Return None
  \/ extract_video_id w url = Return (Some []).

(** The first testable property of the specification, read for every video
    with an English track whose segments were fetched. *)
Definition english_track_always_loads : Prop :=
  forall (w : World) (url vid : str) (tl : TranscriptList) (t : Transcript)
         (segments : list Segment) (s : State),
    extract_video_id w url = Return (Some vid) ->
    Py.truthy vid = true ->
    list_transcripts w vid = Return tl ->
    english_track tl t ->
    fetch_result t = Return segments ->
    exists evs,
      YoutubeTranscriptLoader.load w url s
      = (Return (VideoResult (Py.join " " (map text segments))), after s evs)
      /\ List.filter is_generate_content evs = [].


(** ** Example worlds *)

Module Examples.

Definition unreachable : PyExc :=
  MkExc (OtherException "ConnectionError") "connection refused".

Definition disabled : PyExc :=
  MkExc TranscriptsDisabled "Subtitles are disabled for this video".

Definition no_match : PyExc :=
  MkExc (OtherException "RegexMatchError") "regex_search: could not find match".

(** A world given by the answers of the collaborators, the same for every
    argument. *)
Definition world (env : gmap str str)
    (vid : outcome (option str)) (tracks : outcome TranscriptList)
    (model : outcome GenerateContentResponse)
    (page pdf txt : outcome (list Document)) : World :=
  {| environ := env;
     extract_video_id := fun _ => vid;
     list_transcripts := fun _ => tracks;
     no_transcript_found_msg := fun _ _ => "No transcripts were found";
     generate_content := fun _ => model;
     web_base_loader_load := fun _ => page;
     assemblyai_load := fun _ _ => Raise unreachable;
     pypdf_load_and_split := fun _ => pdf;
     text_loader_load := fun _ => txt;
     open_w_error := fun _ => None;
     write_error := fun _ _ => None |}.

Definition video_world (vid : outcome (option str))
    (tracks : outcome TranscriptList)
    (model : outcome GenerateContentResponse) : World :=
  world ∅ vid tracks model
        (Raise unreachable) (Raise unreachable) (Raise unreachable).

Definition page_world (page : outcome (list Document)) : World :=
  world ∅ (Raise no_match) (Raise unreachable) (Raise unreachable)
        page (Raise unreachable) (Raise unreachable).

Definition file_world (pdf txt : outcome (list Document)) : World :=
  world ∅ (Raise no_match) (Raise unreachable) (Raise unreachable)
        (Raise unreachable) pdf txt.

Definition env_world (env : gmap str str) : World :=
  world env (Raise no_match) (Raise unreachable) (Raise unreachable)
        (Raise unreachable) (Raise unreachable) (Raise unreachable).

Definition s0 : State := {| trace := []; files := ∅ |}.

Definition url : str := "https://youtu.be/T-D1OfcDW1M?si=WOlSKx3YXpWQgJ1m".
Definition vid : str := "T-D1OfcDW1M".

Definition hello : list Segment :=
  [MkSegment "hello" (Some 0%Q) (Some (3 # 2)%Q);
   MkSegment "world" (Some (3 # 2)%Q) (Some 2%Q)].

Definition hola : list Segment :=
  [MkSegment "hola" (Some 0%Q) (Some 1%Q);
   MkSegment "mundo" (Some 1%Q) (Some 1%Q)].

Definition en_manual (segments : list Segment) : Transcript :=
  MkTranscript "en" false (Return segments).

Definition es_generated : Transcript := MkTranscript "es" true (Return hola).

(** A video with a manual English track of the given segments. *)
Definition english_tracks (segments : list Segment) : TranscriptList :=
  MkTranscriptList vid {[ "en" := en_manual segments ]} ∅.

(** A video with a generated Spanish track only. *)
Definition spanish_tracks : TranscriptList :=
  MkTranscriptList vid ∅ {[ "es" := es_generated ]}.

(** A video with a manual Italian track only. *)
Definition italian_tracks : TranscriptList :=
  MkTranscriptList vid
    {[ "it" := MkTranscript "it" false (Return hola) ]} ∅.

Definition english_world (segments : list Segment) : World :=
  video_world (Return (Some vid)) (Return (english_tracks segments))
              (Raise unreachable).

Definition spanish_world (raw : str) : World :=
  video_world (Return (Some vid)) (Return spanish_tracks)
              (Return (MkResponse (Return raw))).

Definition disabled_world : World :=
  video_world (Return (Some vid)) (Raise disabled) (Raise unreachable).

(** The model answers with two lines around an empty one, and white space
    at both ends. *)
Definition answer : str :=
  " hello" +:+ Py.nl +:+ Py.nl +:+ "world " +:+ Py.nl.


Definition page (content : str) : outcome (list Document) :=
  Return [MkDocument content [("source", "https://example.com")]].

End Examples.

(** ** Further notions on the loaders *)

(** The string holds a line feed. *)
Fixpoint has_LF (s : str) : bool :=
  match s with
  | [] => false
  | c :: s' => N.eqb c Py.LF || has_LF s'
  end.

Definition is_fetch (ev : Event) : bool :=
  match ev with
  | CallFetch _ _ => true
  | _ => false
  end.

(** The code points that are white space for Python: the characters whose
    bidirectional class is WS, B or S, and those of the category Zs. *)
Definition white_space : list codepoint :=
  [0x9; 0xA; 0xB; 0xC; 0xD; 0x1C; 0x1D; 0x1E; 0x1F; 0x20; 0x85; 0xA0;
   0x1680; 0x2000; 0x2001; 0x2002; 0x2003; 0x2004; 0x2005; 0x2006; 0x2007;
   0x2008; 0x2009; 0x200A; 0x2028; 0x2029; 0x202F; 0x205F; 0x3000]%N.

(** The string neither starts nor ends with white space. *)
Definition bare (c : str) : Prop :=
  match c with
  | [] => True
  | a :: _ => Py.is_space a = false
  end
  /\ match last c with
     | None => True
     | Some z => Py.is_space z = false
     end.

(** [c] is [s] without the white space around it: [s] is [c] between two
    runs of white space, and [c] neither starts nor ends with white space. *)
Definition stripped_of (s c : str) : Prop :=
  (exists before after_it,
     s = before +:+ c +:+ after_it
     /\ Forall (fun x => Py.is_space x = true) before
     /\ Forall (fun x => Py.is_space x = true) after_it)
  /\ bare c.


(** The fetch routine goes on to the generated tracks: there is no English
    track, or the fetch of the English track raised [NoTranscriptFound]. *)
Inductive Fallback (tl : TranscriptList) : Prop :=
  | fallback_no_english :
      no_english_track tl ->
      Fallback tl
  | fallback_not_found (t : Transcript) (e : PyExc) :
      english_track tl t ->
      fetch_result t = Raise e ->
      exc_class e = NoTranscriptFound ->
      Fallback tl.

(** A step of the fetch and translate pipeline fails: the listing raises;
    the fetch of the English track raises something else than
    [NoTranscriptFound]; or, once the routine went on to the generated
    tracks, no candidate track is found, the fetch of the candidate raises,
    or the translation fails. *)
Inductive InternalFailure (w : World) (vid : str) : Prop :=
  | listing_fails (e : PyExc) :
      list_transcripts w vid = Raise e ->
      InternalFailure w vid
  | english_fetch_fails (tl : TranscriptList) (t : Transcript) (e : PyExc) :
      list_transcripts w vid = Return tl ->
      english_track tl t ->
      fetch_result t = Raise e ->
      exc_class e <> NoTranscriptFound ->
      InternalFailure w vid
  | no_candidate (tl : TranscriptList) :
      list_transcripts w vid = Return tl ->
      Fallback tl ->
      TranscriptApi.first_match candidates [generated_transcripts tl] = None ->
      InternalFailure w vid
  | candidate_fetch_fails (tl : TranscriptList) (t : Transcript) (e : PyExc) :
      list_transcripts w vid = Return tl ->
      Fallback tl ->
      generated_candidate tl t ->
      fetch_result t = Raise e ->
      InternalFailure w vid
  | translation_step_fails (tl : TranscriptList) (t : Transcript)
      (segments : list Segment) (e : PyExc) :
      list_transcripts w vid = Return tl ->
      Fallback tl ->
      generated_candidate tl t ->
      fetch_result t = Return segments ->
      translation_failure w segments = Some e ->
      InternalFailure w vid.

(** How many of the events satisfy [f]. *)
Definition count_calls (f : Event -> bool) (evs : list Event) : nat :=
  length (List.filter f evs).

(** The URL passes the test [WebpageLoader.load] starts with. *)
Definition http_url (url : str) : bool :=
  Py.startswith_any url ["http://"; "https://"].

(** The exception [WebpageLoader.load] makes of the exception [e]. *)
Definition wrapped (e : PyExc) : PyExc :=
  MkExc DocumentLoaderError ("Error loading webpage: " +:+ exc_msg e).

(** [c] is the first of the codes that has a track in the dict [g], and [t]
    is that track. *)
Definition earliest (codes : list str) (g : gmap str Transcript)
    (c : str) (t : Transcript) : Prop :=
  exists pre post,
    codes = pre ++ c :: post
    /\ Forall (fun c' => g !! c' = None) pre
    /\ g !! c = Some t.

Module Scenarios.


Definition not_found : PyExc :=
  MkExc NoTranscriptFound "No transcripts were found".


(** A world whose transcription service answers [docs]. *)
Definition audio_world (env : gmap str str)
    (docs : outcome (list Document)) : World :=
  {| environ := env;
     extract_video_id := fun _ => Raise Examples.no_match;
     list_transcripts := fun _ => Raise Examples.unreachable;
     no_transcript_found_msg := fun _ _ => "No transcripts were found";
     generate_content := fun _ => Raise Examples.unreachable;
     web_base_loader_load := fun _ => Raise Examples.unreachable;
     assemblyai_load := fun _ _ => docs;
     pypdf_load_and_split := fun _ => Raise Examples.unreachable;
     text_loader_load := fun _ => Raise Examples.unreachable;
     open_w_error := fun _ => None;
     write_error := fun _ _ => None |}.

(** The ideographic space U+3000 and the em space U+2003. *)
Definition ideographic_space : codepoint := 0x3000%N.
Definition em_space : codepoint := 0x2003%N.

(** The model answers with two lines around a line of one em space, and
    ideographic spaces at both ends. *)
Definition wide_answer : str :=
  [ideographic_space] +:+ "hello" +:+ Py.nl +:+ [em_space] +:+ Py.nl
  +:+ "world" +:+ [ideographic_space].

(** A page with white space of several kinds around its content. *)
Definition padded_page : str :=
  [ideographic_space; 0x9%N] +:+ "second page" +:+ [em_space] +:+ Py.nl.

(** White space only, of several kinds: an ideographic space, a space, a
    line feed, an em space and the line separator U+2028. *)
Definition wide_blank : str :=
  [ideographic_space] +:+ " " +:+ Py.nl +:+ [em_space; 0x2028%N].

(** A world in which both extractions answer. *)
Definition both_world : World :=
  Examples.file_world
    (Return [MkDocument "page 1" []; MkDocument "page 2" []])
    (Return [MkDocument "the whole text" []]).

(** A state whose sink holds an earlier page and that has another file. *)
Definition used : State :=
  {| trace := [];
     files := {[ WebpageLoader.sink := "earlier page";
                 "notes.txt" := "keep me" ]} |}.

(** A manual English track whose fetch fails with [e]. *)
Definition en_broken (e : PyExc) : Transcript :=
  MkTranscript "en" false (Raise e).

Definition hi_generated : Transcript :=
  MkTranscript "hi" true (Return Examples.hola).

Definition ja_generated : Transcript :=
  MkTranscript "ja" true (Return Examples.hello).

(** A broken manual English track beside a generated Spanish one. *)
Definition broken_english_tracks (e : PyExc) : TranscriptList :=
  MkTranscriptList Examples.vid
    {[ "en" := en_broken e ]} {[ "es" := Examples.es_generated ]}.

(** Generated tracks in Hindi and Japanese, and a manual Korean one. *)
Definition hindi_japanese_tracks : TranscriptList :=
  MkTranscriptList Examples.vid
    {[ "ko" := MkTranscript "ko" false (Return Examples.hola) ]}
    {[ "hi" := hi_generated; "ja" := ja_generated ]}.

Definition tracks_world (tracks : TranscriptList)
    (model : outcome GenerateContentResponse) : World :=
  Examples.video_world (Return (Some Examples.vid)) (Return tracks) model.

End Scenarios.

(** ** The scripts

    [loaders.py], run as a script, calls [main()]; [main.py] imports the
    loaders, loads the four sources and answers queries read from the
    standard input.  Both name their sources by constants; here the sources
    are a parameter.  Printing is assumed not to fail. *)

Module Script.

(** What the scripts use beyond the loaders. *)
Record Runtime : Type := MkRuntime {
  (** the text of [gemini.count_tokens(text)], as [print] and an f-str
      show it *)
  count_tokens : str -> outcome str;
  (** [str(pages)] for a list of documents *)
  str_pages : list Document -> str;
  (** [str(result)] for the dict a loader returned *)
  str_result : LoadResult -> str
}.

(** The four sources of a script. *)
Record Sources : Type := MkSources {
  ytube_video_url : str;
  text_document_url : str;
  webpage_url : str;
  audio_url : str
}.

(** The state of a running script: the state of the loaders, the lines
    left on the standard input, what was written on the standard output,
    and the texts whose tokens were counted. *)
Record Proc : Type := MkProc {
  loaders : State;
  stdin : list str;
  stdout : list str;
  counted : list str
}.

Definition P (A : Type) : Type := Proc -> outcome A * Proc.

Definition ret {A} (a : A) : P A := fun p => (Return a, p).

Definition raise {A} (e : PyExc) : P A := fun p => (Raise e, p).

Definition bind {A B} (m : P A) (k : A -> P B) : P B :=
  fun p =>
    match m p with
    | (Return a, p') => k a p'
    | (Raise e, p') => (Raise e, p')
    end.

Notation "x <== m ;; k" := (bind m (fun x => k))
  (at level 100, m at next level, right associativity).
Notation "m >>> k" := (bind m (fun _ => k))
  (at level 100, right associativity).

Definition try_except {A} (m : P A) (h : PyExc -> P A) : P A :=
  fun p =>
    match m p with
    | (Return a, p') => (Return a, p')
    | (Raise e, p') => h e p'
    end.

(** A method of a loader, run by the script. *)
Definition run_loader {A} (m : M A) : P A :=
  fun p =>
    let (r, s') := m (loaders p) in
    (r, {| loaders := s'; stdin := stdin p; stdout := stdout p;
           counted := counted p |}).

Definition write_out (chunk : str) : P unit :=
  fun p =>
    (Return tt, {| loaders := loaders p; stdin := stdin p;
                   stdout := stdout p ++ [chunk]; counted := counted p |}).

(** [print(a, b, ...)]: the texts joined with single spaces, and a line
    feed. *)
Definition print (args : list str) : P unit :=
  write_out (Py.join " " args +:+ Py.nl).

(** [gemini.count_tokens(text)] *)
Definition count (rt : Runtime) (text : str) : P str :=
  fun p =>
    (count_tokens rt text,
     {| loaders := loaders p; stdin := stdin p; stdout := stdout p;
        counted := counted p ++ [text] |}).

(** [str(n)] for a length. *)
Definition str_nat (n : nat) : str :=
  Py.of_ascii_text (NilEmpty.string_of_uint (Nat.to_uint n)).

Definition KeyError (key : str) : PyExc :=
  MkExc (OtherException "KeyError") ("'" +:+ key +:+ "'").

(** [result['text']] *)
Definition getitem_text (r : LoadResult) : P str :=
  match r with
  | AudioResult t _ => ret t
  | _ => raise (KeyError "text")
  end.

(** [result['pages']] *)
Definition getitem_pages (r : LoadResult) : P (list Document) :=
  match r with
  | PdfResult pages _ => ret pages
  | _ => raise (KeyError "pages")
  end.

(** [result['content']] of the result of the web page loader. *)
Definition getitem_content (r : LoadResult) : P str :=
  match r with
  | WebResult c => ret c
  | _ => raise (KeyError "content")
  end.

(** [result['transcript']] *)
Definition getitem_transcript (r : LoadResult) : P str :=
  match r with
  | VideoResult t => ret t
  | _ => raise (KeyError "transcript")
  end.

(** The top of [loaders.py], run when the module is imported. *)
Definition import_loaders (w : World) : P unit :=
  if Py.truthy_opt (environ w !! "GEMINI_API_KEY") then ret tt
  else raise (MkExc (OtherException "ValueError")
                "GEMINI_API_KEY environment variable not set").

(** The two classes the first handler of [main] catches. *)
Definition is_loader_error (e : PyExc) : bool :=
  match exc_class e with
  | DocumentLoaderError | TranscriptionError => true
  | _ => false
  end.

(** The [try] block of [main()] of [loaders.py]. *)
Definition main_body (w : World) (rt : Runtime) (src : Sources) : P unit :=
    (let transcripts := [] in
     audio_loader <== run_loader (AudioLoader.__init__ w None) ;;
     audio_result <== run_loader (AudioLoader.load w audio_loader (audio_url src)) ;;
     audio_text <== getitem_text audio_result ;;
     print ["Audio transcript:"; audio_text] >>>
     let transcripts := transcripts +:+ audio_text in
     print ["Audio transcript Success"] >>>
     pdf_result <== run_loader (TextDocumentLoader.load w (text_document_url src)) ;;
     pages <== getitem_pages pdf_result ;;
     print ["PDF pages:"; str_pages rt pages; "length: ";
            str_nat (length pages)] >>>
     let transcripts := transcripts +:+ str_pages rt pages in
     print ["PDF transcript Success"] >>>
     web_result <== run_loader (WebpageLoader.load w (webpage_url src)) ;;
     content <== getitem_content web_result ;;
     print ["Webpage content length:"; str_nat (length content)] >>>
     let transcripts := transcripts +:+ content in
     print ["Webpage transcript Success"] >>>
     transcript_result <==
       run_loader (YoutubeTranscriptLoader.load w (ytube_video_url src)) ;;
     transcript <== getitem_transcript transcript_result ;;
     print ["Transcript:"; transcript] >>>
     let transcripts := transcripts +:+ transcript in
     print ["Youtube Transcript Success"] >>>
     tokens <== count rt transcripts ;;
     print ["Gemini Tokens: " +:+ tokens +:+ "."]).

(** [main()] of [loaders.py]. *)
Definition main (w : World) (rt : Runtime) (src : Sources) : P unit :=
  try_except
    (main_body w rt src)
    (fun e =>
       if is_loader_error e then print ["Error: " +:+ exc_msg e]
       else print ["Unexpected error: " +:+ exc_msg e]).

(** The line is one of the three [main] ends its output with. *)
Definition is_report (line : str) : bool :=
  Py.startswith line "Gemini Tokens: "
  || Py.startswith line "Error: "
  || Py.startswith line "Unexpected error: ".

(** [input(prompt)] at the end of the standard input. *)
Definition EOFError : PyExc :=
  MkExc (OtherException "EOFError") "EOF when reading a line".

(** The loop of [main.py], on the lines left on the standard input: each
    turn writes the prompt and takes one line. *)
Fixpoint query_loop (w : World) (rt : Runtime) (context : str)
    (lines : list str) : P unit :=
  match lines with
  | [] => write_out "Query: " >>> raise EOFError
  | query :: rest =>
      write_out "Query: " >>>
      (fun p => (Return tt, {| loaders := loaders p; stdin := rest;
                               stdout := stdout p; counted := counted p |})) >>>
      if Py.eqb query "exit" then ret tt
      else
        let prompt :=
          "Answer the <>" +:+ query
          +:+ "</> based on the context, context: " +:+ context in
        response <==
          run_loader (call (CallGenerateContent query)
                           (generate_content w query)) ;;
        answer <== run_loader (lift (response_text response)) ;;
        print [answer] >>>
        tokens <== count rt answer ;;
        print ["Tokens:"; tokens] >>>
        query_loop w rt context rest
  end.

(** [main.py]. *)
Definition main_py (w : World) (rt : Runtime) (src : Sources) : P unit :=
  import_loaders w >>>
  audio_loader <== run_loader (AudioLoader.__init__ w None) ;;
  transcript <==
    run_loader (YoutubeTranscriptLoader.load w (ytube_video_url src)) ;;
  web_content <== run_loader (WebpageLoader.load w (webpage_url src)) ;;
  text_content <==
    run_loader (TextDocumentLoader.load w (text_document_url src)) ;;
  audio_content <==
    run_loader (AudioLoader.load w audio_loader (audio_url src)) ;;
  let context :=
    str_result rt transcript +:+ Py.nl +:+ str_result rt web_content
    +:+ Py.nl +:+ str_result rt text_content +:+ Py.nl
    +:+ str_result rt audio_content in
  fun p => query_loop w rt context (stdin p) p.

(** What the loop writes for the queries it answers. *)
Fixpoint dialogue (w : World) (rt : Runtime) (queries : list str)
  : list str :=
  match queries with
  | [] => []
  | q :: qs =>
      match generate_content w q with
      | Return response =>
          match response_text response with
          | Return answer =>
              match count_tokens rt answer with
              | Return tokens =>
                  ["Query: "; answer +:+ Py.nl;
                   "Tokens: " +:+ tokens +:+ Py.nl]
                  ++ dialogue w rt qs
              | Raise _ => []
              end
          | Raise _ => []
          end
      | Raise _ => []
      end
  end.

(** The answers the loop counts the tokens of. *)
Fixpoint answers (w : World) (queries : list str) : list str :=
  match queries with
  | [] => []
  | q :: qs =>
      match generate_content w q with
      | Return response =>
          match response_text response with
          | Return answer => answer :: answers w qs
          | Raise _ => []
          end
      | Raise _ => []
      end
  end.

(** The query is not the word that ends the loop, and the model and the
    token count answer it. *)
Definition answered (w : World) (rt : Runtime) (q : str) : Prop :=
  q <> "exit"
  /\ exists response answer tokens,
       generate_content w q = Return response
       /\ response_text response = Return answer
       /\ count_tokens rt answer = Return tokens.

End Script.

Module Sessions.

(** A world in which every collaborator answers: both keys are set, the
    video has a manual English track, the model repeats an answer. *)
Definition working_world (env : gmap str str) : World :=
  {| environ := env;
     extract_video_id := fun _ => Return (Some Examples.vid);
     list_transcripts := fun _ =>
       Return (Examples.english_tracks Examples.hello);
     no_transcript_found_msg := fun _ _ => "No transcripts were found";
     generate_content := fun _ => Return (MkResponse (Return "an answer"));
     web_base_loader_load := fun _ => Examples.page " a page ";
     assemblyai_load := fun _ _ => Return [MkDocument "a talk" []];
     pypdf_load_and_split := fun _ =>
       Return [MkDocument "page 1" []; MkDocument "page 2" []];
     text_loader_load := fun _ => Return [MkDocument "notes" []];
     open_w_error := fun _ => None;
     write_error := fun _ _ => None |}.

Definition both_keys : gmap str str :=
  {[ "GEMINI_API_KEY" := "g-key"; "ASSEMBLY_API_KEY" := "a-key" ]}.

Definition gemini_key_only : gmap str str :=
  {[ "GEMINI_API_KEY" := "g-key" ]}.

(** A runtime whose texts of values are short marks. *)
Definition runtime : Script.Runtime :=
  {| Script.count_tokens := fun _ => Return "total_tokens: 2";
     Script.str_pages := fun pages => "[pages]";
     Script.str_result := fun _ => "{result}" |}.

Definition sources : Script.Sources :=
  {| Script.ytube_video_url := Examples.url;
     Script.text_document_url := "./LangChain_Cheat_Sheet_KDnuggets.pdf";
     Script.webpage_url := "https://medium.com/pythoneers/building-a-multi-agent-system-using-crewai-a7305450253e";
     Script.audio_url := "./talk.mp3" |}.

(** The working world, but for a video whose captions are disabled. *)
Definition captionless_world (env : gmap str str) : World :=
  {| environ := env;
     extract_video_id := fun _ => Return (Some Examples.vid);
     list_transcripts := fun _ => Raise Examples.disabled;
     no_transcript_found_msg := fun _ _ => "No transcripts were found";
     generate_content := fun _ => Return (MkResponse (Return "an answer"));
     web_base_loader_load := fun _ => Examples.page " a page ";
     assemblyai_load := fun _ _ => Return [MkDocument "a talk" []];
     pypdf_load_and_split := fun _ =>
       Return [MkDocument "page 1" []; MkDocument "page 2" []];
     text_loader_load := fun _ => Return [MkDocument "notes" []];
     open_w_error := fun _ => None;
     write_error := fun _ _ => None |}.

(** The working world, but for a transcription service that is down. *)
Definition deaf_world (env : gmap str str) : World :=
  {| environ := env;
     extract_video_id := fun _ => Return (Some Examples.vid);
     list_transcripts := fun _ =>
       Return (Examples.english_tracks Examples.hello);
     no_transcript_found_msg := fun _ _ => "No transcripts were found";
     generate_content := fun _ => Return (MkResponse (Return "an answer"));
     web_base_loader_load := fun _ => Examples.page " a page ";
     assemblyai_load := fun _ _ => Raise Examples.unreachable;
     pypdf_load_and_split := fun _ =>
       Return [MkDocument "page 1" []; MkDocument "page 2" []];
     text_loader_load := fun _ => Return [MkDocument "notes" []];
     open_w_error := fun _ => None;
     write_error := fun _ _ => None |}.

(** A fresh process with the given lines on its standard input. *)
Definition fresh (lines : list str) : Script.Proc :=
  {| Script.loaders := Examples.s0; Script.stdin := lines;
     Script.stdout := []; Script.counted := [] |}.

End Sessions.

(** ** Lemmas on the string operations *)

(** Lookups at a literal key stay as they are written. *)
#[local] Arguments lookup : simpl never.
#[local] Arguments insert : simpl never.

Section StringFacts.

Lemma is_space_LF : Py.is_space Py.LF = true.
Proof. reflexivity. Qed.

(** [is_space] holds of the 29 white space code points and of no other. *)
Lemma is_space_iff (c : codepoint) :
  Py.is_space c = true <-> In c white_space.
Proof.
  split.
  - unfold Py.is_space.
    rewrite !orb_true_iff, !andb_true_iff, !N.leb_le, !N.eqb_eq.
    unfold white_space. simpl. lia.
  - unfold white_space. intros H.
    repeat (destruct H as [<-|H]; [reflexivity|]). destruct H.
Qed.

Lemma str_eqb_eq (a b : str) : Py.eqb a b = true <-> a = b.
Proof.
  revert b. induction a as [|x a IH]; intros [|y b]; simpl;
    try (split; [discriminate|discriminate]); [tauto|].
  rewrite andb_true_iff, N.eqb_eq, IH. split.
  - intros [-> ->]. reflexivity.
  - intros [= -> ->]. auto.
Qed.

Lemma str_eqb_neq (a b : str) : a <> b -> Py.eqb a b = false.
Proof.
  intros Hne. destruct (Py.eqb a b) eqn:He; [|reflexivity].
  apply str_eqb_eq in He. contradiction.
Qed.

Lemma truthy_nonempty (c : codepoint) (s : str) : Py.truthy (c :: s) = true.
Proof. reflexivity. Qed.

Lemma lstrip_blank (s : str) : Py.blank s = true -> Py.lstrip s = [].
Proof.
  induction s as [|c s IH]; simpl; [reflexivity|].
  intros [Hc Hs]%andb_prop. rewrite Hc. auto.
Qed.

Lemma blank_lstrip (s : str) : Py.blank (Py.lstrip s) = Py.blank s.
Proof.
  induction s as [|c s IH]; simpl; [reflexivity|].
  destruct (Py.is_space c) eqn:Hc; simpl; [exact IH|].
  rewrite Hc. reflexivity.
Qed.

Lemma rstrip_empty_iff (s : str) : Py.rstrip s = [] <-> Py.blank s = true.
Proof.
  induction s as [|c s IH]; simpl; [tauto|].
  destruct (Py.rstrip s) eqn:Hr.
  - destruct (Py.is_space c); simpl.
    + rewrite <- IH. tauto.
    + split; discriminate.
  - split; [discriminate|].
    intros [_ Hs]%andb_prop. apply IH in Hs. discriminate.
Qed.

Lemma strip_empty_iff (s : str) : Py.strip s = [] <-> Py.blank s = true.
Proof.
  unfold Py.strip. rewrite rstrip_empty_iff, blank_lstrip. tauto.
Qed.

Lemma truthy_strip (s : str) : Py.truthy (Py.strip s) = negb (Py.blank s).
Proof.
  unfold Py.truthy.
  destruct (Py.blank s) eqn:Hb.
  - apply strip_empty_iff in Hb. rewrite Hb. reflexivity.
  - destruct (Py.strip s) eqn:He; [|reflexivity].
    apply strip_empty_iff in He. congruence.
Qed.

(** A stripped string is empty or starts with a character that is not white
    space. *)
Lemma lstrip_head (s : str) :
  match Py.lstrip s with
  | [] => True
  | c :: _ => Py.is_space c = false
  end.
Proof.
  induction s as [|c s IH]; simpl; [exact I|].
  destruct (Py.is_space c) eqn:Hc; [exact IH|exact Hc].
Qed.

Lemma rstrip_head (c : codepoint) (s : str) :
  Py.is_space c = false -> exists r, Py.rstrip (c :: s) = c :: r.
Proof.
  intros Hc. simpl. rewrite Hc. destruct (Py.rstrip s); eauto.
Qed.

Lemma strip_head (s : str) :
  Py.strip s = []
  \/ exists c r, Py.strip s = c :: r /\ Py.is_space c = false.
Proof.
  unfold Py.strip. pose proof (lstrip_head s) as H.
  destruct (Py.lstrip s) as [|c r]; [left; reflexivity|].
  right. destruct (rstrip_head c r H) as [r' Hr]. eauto.
Qed.

Lemma split_lines_head (c : codepoint) (s : str) :
  Py.is_space c = false ->
  exists h t, Py.split_lines (c :: s) = (c :: h) :: t.
Proof.
  intros Hc. simpl.
  destruct (N.eqb_spec c Py.LF) as [->|_].
  - rewrite is_space_LF in Hc. discriminate.
  - destruct (Py.split_lines s); eauto.
Qed.

(** [endswith] holds exactly of the strings that end with the suffix. *)
Lemma endswith_iff (s p : str) :
  Py.endswith s p = true <-> exists stem, s = stem +:+ p.
Proof.
  unfold Py.endswith, cat. rewrite andb_true_iff, Nat.leb_le, str_eqb_eq.
  split.
  - intros [Hlen Hsub].
    exists (take (length s - length p) s).
    rewrite <- (take_drop (length s - length p) s) at 1.
    rewrite Hsub. reflexivity.
  - intros [stem ->]. rewrite length_app.
    replace (length stem + length p - length p) with (length stem) by lia.
    split; [lia|apply drop_app_length].
Qed.

(** [endswith] fails exactly of the strings that do not end with the
    suffix. *)
Lemma not_suffix (s p : str) :
  Py.endswith s p = false <-> forall stem, s <> stem +:+ p.
Proof.
  split.
  - intros Hf stem ->.
    assert (Ht : Py.endswith (stem +:+ p) p = true)
      by (apply endswith_iff; eauto).
    congruence.
  - intros Hn. destruct (Py.endswith s p) eqn:He; [|reflexivity].
    apply endswith_iff in He as [stem ->].
    exfalso. apply (Hn stem). reflexivity.
Qed.

(** [startswith] holds exactly of the strings that start with the prefix. *)
Lemma startswith_iff (s p : str) :
  Py.startswith s p = true <-> exists rest, s = p +:+ rest.
Proof.
  unfold cat. revert s. induction p as [|a p IH]; intros s.
  - split; [intros _; exists s; reflexivity|reflexivity].
  - destruct s as [|b s].
    + split; [intros H; discriminate H|]. intros [rest H]. discriminate H.
    + change (N.eqb a b && Py.startswith s p = true
              <-> exists rest, b :: s = a :: (p ++ rest)).
      rewrite andb_true_iff, N.eqb_eq, IH. split.
      * intros [-> [rest ->]]. eauto.
      * intros [rest [= -> ->]]. eauto.
Qed.

Lemma startswith_append (p rest : str) : Py.startswith (p +:+ rest) p = true.
Proof. apply startswith_iff. exists rest. reflexivity. Qed.

(** No line survives exactly when the text of the model is blank. *)
Lemma rebuild_strip_nil_iff (raw : str) :
  rebuild (Py.strip raw) = [] <-> Py.blank raw = true.
Proof.
  split.
  - intros Hnil. destruct (strip_head raw) as [He|(c & r & He & Hc)].
    + apply strip_empty_iff, He.
    + rewrite He in Hnil. unfold rebuild in Hnil.
      destruct (split_lines_head c r Hc) as (h & t & Hs).
      rewrite Hs in Hnil. simpl in Hnil.
      rewrite truthy_strip in Hnil. simpl in Hnil. rewrite Hc in Hnil.
      simpl in Hnil. discriminate.
  - intros Hb. apply strip_empty_iff in Hb. rewrite Hb. reflexivity.
Qed.

(** Every rebuilt segment has no timing and a text that is not blank. *)
Lemma rebuild_untimed_nonblank (translated_text : str) :
  Forall untimed_nonblank (rebuild translated_text).
Proof.
  unfold rebuild.
  induction (Py.split_lines translated_text) as [|line ls IH]; simpl.
  - constructor.
  - rewrite truthy_strip.
    destruct (Py.blank line) eqn:Hb; simpl; [exact IH|].
    constructor; [|exact IH].
    unfold untimed_nonblank. simpl. auto.
Qed.

(** The texts of the rebuilt segments are the lines that are not blank. *)
Lemma rebuild_texts (translated_text : str) :
  map text (rebuild translated_text)
  = List.filter (fun line => negb (Py.blank line))
                (Py.split_lines translated_text).
Proof.
  unfold rebuild. rewrite map_map. simpl. rewrite map_id.
  apply filter_ext. intros line. apply truthy_strip.
Qed.

Lemma rstrip_cons (c c' : codepoint) (x r : str) :
  Py.rstrip x = c' :: r -> Py.rstrip (c :: x) = c :: c' :: r.
Proof. intros Hx. simpl. rewrite Hx. reflexivity. Qed.

Lemma rstrip_idempotent (s : str) : Py.rstrip (Py.rstrip s) = Py.rstrip s.
Proof.
  induction s as [|c s IH]; [reflexivity|].
  simpl. destruct (Py.rstrip s) as [|c' r] eqn:Hr.
  - destruct (Py.is_space c) eqn:Hc; [reflexivity|].
    simpl. rewrite Hc. reflexivity.
  - apply rstrip_cons. exact IH.
Qed.

Lemma lstrip_fixed (c : codepoint) (s : str) :
  Py.is_space c = false -> Py.lstrip (c :: s) = c :: s.
Proof. intros Hc. simpl. rewrite Hc. reflexivity. Qed.

(** Stripping twice is stripping once. *)
Lemma strip_idempotent (s : str) : Py.strip (Py.strip s) = Py.strip s.
Proof.
  destruct (strip_head s) as [He|(c & r & He & Hc)].
  - rewrite He. reflexivity.
  - unfold Py.strip at 1. rewrite He, (lstrip_fixed c r Hc), <- He.
    unfold Py.strip. apply rstrip_idempotent.
Qed.

(** [lstrip] takes a run of white space off the front. *)
Lemma lstrip_split (s : str) :
  exists before,
    s = before +:+ Py.lstrip s
    /\ Forall (fun x => Py.is_space x = true) before.
Proof.
  unfold cat. induction s as [|c s (before & Hs & Hb)]; simpl.
  - exists []. split; [reflexivity|constructor].
  - destruct (Py.is_space c) eqn:Hc.
    + exists (c :: before). split; [simpl; congruence|].
      constructor; assumption.
    + exists []. split; [reflexivity|constructor].
Qed.

(** [rstrip] takes a run of white space off the end. *)
Lemma rstrip_split (s : str) :
  exists after_it,
    s = Py.rstrip s +:+ after_it
    /\ Forall (fun x => Py.is_space x = true) after_it.
Proof.
  unfold cat. induction s as [|c s (after_it & Hs & Ha)]; simpl.
  - exists []. split; [reflexivity|constructor].
  - destruct (Py.rstrip s) as [|c' r] eqn:Hr.
    + destruct (Py.is_space c) eqn:Hc.
      * exists (c :: after_it). split; [simpl in Hs; simpl; congruence|].
        constructor; assumption.
      * exists after_it. split; [simpl in Hs |- *; congruence|assumption].
    + exists after_it. split; [|assumption].
      rewrite Hs at 1. reflexivity.
Qed.

(** What [rstrip] leaves does not end with white space. *)
Lemma rstrip_last (s : str) :
  match last (Py.rstrip s) with
  | None => True
  | Some z => Py.is_space z = false
  end.
Proof.
  induction s as [|c s IH]; simpl; [exact I|].
  destruct (Py.rstrip s) as [|c' r] eqn:Hr.
  - destruct (Py.is_space c) eqn:Hc; simpl; [exact I|exact Hc].
  - rewrite last_cons. destruct (last (c' :: r)) eqn:Hl; [exact IH|].
    apply last_None in Hl. discriminate Hl.
Qed.

(** [strip] is what its name says, stated without it: the string is the
    stripped one between two runs of white space, and the stripped one
    neither starts nor ends with white space. *)
Lemma strip_spec (s : str) : stripped_of s (Py.strip s).
Proof.
  unfold stripped_of, Py.strip, cat. split.
  - destruct (lstrip_split s) as (before & Hs & Hb).
    destruct (rstrip_split (Py.lstrip s)) as (after_it & Hl & Ha).
    unfold cat in Hs, Hl.
    exists before, after_it. split; [|split; assumption].
    rewrite <- Hl. exact Hs.
  - split; [|apply rstrip_last].
    pose proof (lstrip_head s) as Hh.
    destruct (Py.lstrip s) as [|c r] eqn:Hl; [exact I|].
    destruct (rstrip_head c r Hh) as (r' & ->). exact Hh.
Qed.

Lemma blank_Forall (s : str) :
  Py.blank s = true <-> Forall (fun x => Py.is_space x = true) s.
Proof.
  induction s as [|c s IH]; simpl.
  - split; [constructor|reflexivity].
  - rewrite andb_true_iff, IH. split.
    + intros [Hc Hs]. constructor; assumption.
    + intros H. inversion H; subst. split; assumption.
Qed.

Lemma lstrip_spaces (before x : str) :
  Forall (fun c => Py.is_space c = true) before ->
  Py.lstrip (before +:+ x) = Py.lstrip x.
Proof.
  unfold cat. induction 1 as [|c before Hc _ IH]; [reflexivity|].
  simpl. rewrite Hc. exact IH.
Qed.

Lemma rstrip_spaces (x after_it : str) :
  Forall (fun c => Py.is_space c = true) after_it ->
  Py.rstrip (x +:+ after_it) = Py.rstrip x.
Proof.
  unfold cat. intros Ha. induction x as [|c x IH]; simpl.
  - apply rstrip_empty_iff, blank_Forall, Ha.
  - rewrite IH. reflexivity.
Qed.

Lemma rstrip_bare (c : str) :
  match last c with
  | None => True
  | Some z => Py.is_space z = false
  end ->
  Py.rstrip c = c.
Proof.
  induction c as [|a c IH]; [reflexivity|].
  destruct c as [|b c].
  - simpl. intros ->. reflexivity.
  - rewrite last_cons. destruct (last (b :: c)) eqn:Hl.
    + intros Hz. apply rstrip_cons, IH, Hz.
    + apply last_None in Hl. discriminate Hl.
Qed.

(** Only one string is the stripped one: what [stripped_of] holds of is
    what [strip] returns. *)
Lemma stripped_of_strip (s c : str) : stripped_of s c -> c = Py.strip s.
Proof.
  intros [(before & after_it & -> & Hb & Ha) [Hhead Hlast]].
  unfold Py.strip. rewrite (lstrip_spaces before _ Hb).
  destruct c as [|a c].
  - change ([] +:+ after_it) with after_it.
    rewrite lstrip_blank by (apply blank_Forall, Ha). reflexivity.
  - change ((a :: c) +:+ after_it) with (a :: (c +:+ after_it)).
    rewrite (lstrip_fixed a _ Hhead).
    change (a :: (c +:+ after_it)) with ((a :: c) +:+ after_it).
    rewrite (rstrip_spaces _ _ Ha). symmetry. apply rstrip_bare, Hlast.
Qed.

Lemma has_LF_append (a b : str) : has_LF (a +:+ b) = has_LF a || has_LF b.
Proof.
  unfold cat. induction a as [|c a IH]; [reflexivity|].
  simpl. rewrite IH. apply orb_assoc.
Qed.

Lemma blank_append (a b : str) : Py.blank (a +:+ b) = Py.blank a && Py.blank b.
Proof.
  unfold cat. induction a as [|c a IH]; [reflexivity|].
  simpl. rewrite IH. apply andb_assoc.
Qed.


(** No piece of [split('\n')] holds a line feed. *)
Lemma split_lines_no_LF (s : str) :
  Forall (fun line => has_LF line = false) (Py.split_lines s).
Proof.
  induction s as [|c s IH]; simpl.
  - repeat constructor.
  - destruct (N.eqb c Py.LF) eqn:Hc.
    + constructor; [reflexivity|exact IH].
    + destruct (Py.split_lines s) as [|h t];
        [repeat constructor; simpl; rewrite Hc; reflexivity|].
      inversion IH as [|? ? Hh Ht]; subst.
      constructor; [|exact Ht]. simpl. rewrite Hc, Hh. reflexivity.
Qed.

Lemma join_cons (sep x : str) (l : list str) :
  l <> [] -> Py.join sep (x :: l) = x +:+ sep +:+ Py.join sep l.
Proof. destruct l; [contradiction|reflexivity]. Qed.



Lemma join_no_LF (l : list str) :
  Forall (fun line => has_LF line = false) l ->
  has_LF (Py.join " " l) = false.
Proof.
  induction 1 as [|x l Hx Hl IH]; [reflexivity|].
  destruct l as [|y l]; [exact Hx|].
  rewrite join_cons by discriminate.
  rewrite !has_LF_append, Hx, IH. reflexivity.
Qed.

Lemma join_not_blank (x : str) (l : list str) :
  Py.blank x = false -> Py.blank (Py.join " " (x :: l)) = false.
Proof.
  intros Hx. destruct l as [|y l]; [exact Hx|].
  rewrite join_cons by discriminate.
  rewrite blank_append, Hx. reflexivity.
Qed.

End StringFacts.

(** ** Running the monad *)

Section MonadFacts.

Lemma after_after (s : State) (a b : list Event) :
  after (after s a) b = after s (a ++ b).
Proof. unfold after. simpl. rewrite app_assoc. reflexivity. Qed.

End MonadFacts.

(** Unfolds the monad operations and merges the events. *)
Ltac run :=
  unfold try_except, bind, call, emit, lift, ret, raise, log, mk_error;
  simpl;
  repeat rewrite after_after;
  simpl.

(** ** The state machine of [YoutubeTranscriptLoader], step by step *)

Section YoutubeSteps.

Variable w : World.

Lemma get_video_id_run (url : str) (s : State) :
  _get_video_id w url s
  = (Return (match extract_video_id w url with
             | Return o => o
             | Raise _ => None
             end),
     after s (CallVideoId url ::
              match extract_video_id w url with
              | Return _ => []
              | Raise e =>
                  [Log logger ERROR ("Error extracting video ID: " +:+ exc_msg e)]
              end)).
Proof.
  unfold _get_video_id. run.
  destruct (extract_video_id w url); run; reflexivity.
Qed.

Lemma translate_transcript_run (segments : list Segment) (s : State) :
  _translate_transcript w segments s
  = (Return (option_map (fun raw => rebuild (Py.strip raw))
                        (translation_text w segments)),
     after s (CallGenerateContent (prompt_of segments) ::
              match translation_failure w segments with
              | None => []
              | Some e =>
                  [Log logger ERROR ("Translation error: " +:+ exc_msg e)]
              end)).
Proof.
  unfold _translate_transcript, translation_text, translation_failure.
  fold (prompt_of segments). run.
  destruct (generate_content w (prompt_of segments)) as [response|e]; run;
    [|reflexivity].
  destruct (response_text response); run; reflexivity.
Qed.

Lemma handle_not_found (tl : TranscriptList) (s : State) :
  TranscriptApi.first_match candidates [generated_transcripts tl] = None ->
  _handle_non_english_transcript w tl s
  = (Return None,
     after s [Log logger ERROR
                ("Error handling non-English transcript: "
                 +:+ no_transcript_found_msg w (video_id tl) candidates)]).
Proof.
  intros Hf. unfold _handle_non_english_transcript,
    TranscriptApi.find_generated_transcript, TranscriptApi._find_transcript.
  rewrite Hf. run. reflexivity.
Qed.

Lemma handle_fetch_fails (tl : TranscriptList) (t : Transcript) (e : PyExc)
    (s : State) :
  TranscriptApi.first_match candidates [generated_transcripts tl] = Some t ->
  fetch_result t = Raise e ->
  _handle_non_english_transcript w tl s
  = (Return None,
     after s [Log logger INFO "Found non-English transcript. Translating...";
              CallFetch (language_code t) (is_generated t);
              Log logger ERROR
                ("Error handling non-English transcript: " +:+ exc_msg e)]).
Proof.
  intros Hf He. unfold _handle_non_english_transcript,
    TranscriptApi.find_generated_transcript, TranscriptApi._find_transcript,
    TranscriptApi.fetch.
  rewrite Hf. run. rewrite He. run. reflexivity.
Qed.

Lemma handle_translates (tl : TranscriptList) (t : Transcript)
    (segments : list Segment) (s : State) :
  TranscriptApi.first_match candidates [generated_transcripts tl] = Some t ->
  fetch_result t = Return segments ->
  _handle_non_english_transcript w tl s
  = _translate_transcript w segments
      (after s [Log logger INFO "Found non-English transcript. Translating...";
                CallFetch (language_code t) (is_generated t)]).
Proof.
  intros Hf He. unfold _handle_non_english_transcript,
    TranscriptApi.find_generated_transcript, TranscriptApi._find_transcript,
    TranscriptApi.fetch.
  rewrite Hf. run. rewrite He. run.
  rewrite translate_transcript_run. reflexivity.
Qed.

Lemma handle_total (tl : TranscriptList) (s : State) :
  exists r s', _handle_non_english_transcript w tl s = (Return r, s').
Proof.
  destruct (TranscriptApi.first_match candidates [generated_transcripts tl])
    as [t|] eqn:Hf.
  - destruct (fetch_result t) as [segments|e] eqn:He.
    + rewrite (handle_translates tl t segments s Hf He).
      rewrite translate_transcript_run. eauto.
    + rewrite (handle_fetch_fails tl t e s Hf He). eauto.
  - rewrite (handle_not_found tl s Hf). eauto.
Qed.

Lemma fetch_listing_fails (vid : str) (e : PyExc) (s : State) :
  list_transcripts w vid = Raise e ->
  _fetch_transcript w vid s
  = (Return None,
     after s [CallListTranscripts vid;
              Log logger ERROR
                ((if is_transcript_error e then "Transcript error: "
                  else "Unexpected error: ") +:+ exc_msg e)]).
Proof.
  intros Hl. unfold _fetch_transcript. run. rewrite Hl.
  destruct (is_transcript_error e); run; reflexivity.
Qed.

Lemma find_english (tl : TranscriptList) (t : Transcript) :
  english_track tl t ->
  TranscriptApi.find_transcript w tl ["en"] = Return t.
Proof.
  unfold TranscriptApi.find_transcript, TranscriptApi._find_transcript.
  simpl. intros [Hm|[Hm Hg]]; rewrite Hm; [reflexivity|].
  rewrite Hg. reflexivity.
Qed.

Lemma find_no_english (tl : TranscriptList) :
  no_english_track tl ->
  TranscriptApi.find_transcript w tl ["en"]
  = Raise (MkExc NoTranscriptFound
             (no_transcript_found_msg w (video_id tl) ["en"])).
Proof.
  unfold TranscriptApi.find_transcript, TranscriptApi._find_transcript.
  simpl. intros [Hm Hg]. rewrite Hm, Hg. reflexivity.
Qed.

Lemma fetch_english (vid : str) (tl : TranscriptList) (t : Transcript)
    (segments : list Segment) (s : State) :
  list_transcripts w vid = Return tl ->
  english_track tl t ->
  fetch_result t = Return segments ->
  _fetch_transcript w vid s
  = (Return (Some segments),
     after s [CallListTranscripts vid;
              CallFetch (language_code t) (is_generated t)]).
Proof.
  intros Hl Ht Hf. unfold _fetch_transcript, TranscriptApi.fetch. run.
  rewrite Hl, (find_english tl t Ht). run. rewrite Hf. reflexivity.
Qed.

Lemma fetch_no_english (vid : str) (tl : TranscriptList) (s : State) :
  list_transcripts w vid = Return tl ->
  no_english_track tl ->
  _fetch_transcript w vid s
  = _handle_non_english_transcript w tl (after s [CallListTranscripts vid]).
Proof.
  intros Hl Hn. unfold _fetch_transcript. run.
  rewrite Hl, (find_no_english tl Hn). simpl.
  destruct (handle_total tl (after s [CallListTranscripts vid]))
    as (r & s' & Hh).
  rewrite Hh. reflexivity.
Qed.

Lemma fetch_total (vid : str) (s : State) :
  exists r s', _fetch_transcript w vid s = (Return r, s').
Proof.
  unfold _fetch_transcript, TranscriptApi.fetch. run.
  destruct (list_transcripts w vid) as [tl|e]; simpl.
  - destruct (TranscriptApi.find_transcript w tl ["en"]) as [t|e]; simpl.
    + destruct (fetch_result t) as [segments|e]; simpl; [eauto|].
      destruct (is_NoTranscriptFound e).
      * match goal with
        | |- context [_handle_non_english_transcript w tl ?s0] =>
            destruct (handle_total tl s0) as (r & s' & Hh)
        end.
        rewrite Hh. eauto.
      * destruct (is_transcript_error e); simpl; eauto.
    + destruct (is_NoTranscriptFound e).
      * destruct (handle_total tl (after s [CallListTranscripts vid]))
          as (r & s' & Hh).
        rewrite Hh. eauto.
      * destruct (is_transcript_error e); simpl; eauto.
  - destruct (is_transcript_error e); simpl; eauto.
Qed.

(** [load] once the identifier is there: the only exception it raises is
    the one it makes itself from an absent or empty segment sequence. *)
Lemma load_with_id (url vid : str) (s s' : State)
    (r : option (list Segment)) :
  extract_video_id w url = Return (Some vid) ->
  Py.truthy vid = true ->
  _fetch_transcript w vid (after s [CallVideoId url]) = (Return r, s') ->
  YoutubeTranscriptLoader.load w url s
  = (match r with
     | None | Some [] =>
         Raise (MkExc TranscriptionError "No transcript available")
     | Some entries => Return (VideoResult (Py.join " " (map text entries)))
     end, s').
Proof.
  intros Hx Hv Hf. unfold YoutubeTranscriptLoader.load, bind.
  rewrite get_video_id_run, Hx, Hv. simpl. rewrite Hf.
  destruct r as [[|seg segs]|]; reflexivity.
Qed.

Lemma load_without_id (url : str) (s : State) :
  match extract_video_id w url with
  | Return (Some vid) => Py.truthy vid = false
  | _ => True
  end ->
  YoutubeTranscriptLoader.load w url s
  = (Raise (MkExc DocumentLoaderError "Invalid YouTube URL"),
     after s (CallVideoId url ::
              match extract_video_id w url with
              | Return _ => []
              | Raise e =>
                  [Log logger ERROR ("Error extracting video ID: " +:+ exc_msg e)]
              end)).
Proof.
  intros Hx. unfold YoutubeTranscriptLoader.load, bind.
  rewrite get_video_id_run.
  destruct (extract_video_id w url) as [[vid|]|e]; simpl; try reflexivity.
  rewrite Hx. reflexivity.
Qed.

End YoutubeSteps.

(** ** The English track *)

(** C1 (as stated) fails: a video whose manual English track is fetched with
    no segment makes [load] raise [TranscriptionError] where the property
    promises the transcript of the joined (here empty) texts. *)
Lemma english_track_empty_is_refused :
  english_track (Examples.english_tracks []) (Examples.en_manual [])
  /\ fetch_result (Examples.en_manual []) = Return []
  /\ YoutubeTranscriptLoader.load (Examples.english_world []) Examples.url
       Examples.s0
     = (Raise (MkExc TranscriptionError "No transcript available"),
        after Examples.s0
          [CallVideoId Examples.url; CallListTranscripts Examples.vid;
           CallFetch "en" false])
  /\ ~ english_track_always_loads.
Proof.
  split; [left; reflexivity|].
  split; [reflexivity|].
  split; [reflexivity|].
  intros H.
  destruct (H (Examples.english_world []) Examples.url Examples.vid
              (Examples.english_tracks []) (Examples.en_manual [])
              [] Examples.s0) as (evs & Hload & _);
    try reflexivity.
  - left. reflexivity.
  - vm_compute in Hload. discriminate Hload.
Qed.

(** C1 (amended): for every video whose track list has an English track,
    manual or generated, and whose fetch yields at least one segment, [load]
    returns the transcript made of the texts of these segments joined with
    single spaces; the calls it makes are the identifier extraction, the
    listing and the fetch of that track, and the generative model is not
    called. *)
Theorem english_track_loads (w : World) (url vid : str)
    (tl : TranscriptList) (t : Transcript) (segments : list Segment)
    (s : State) :
  extract_video_id w url = Return (Some vid) ->
  Py.truthy vid = true ->
  list_transcripts w vid = Return tl ->
  english_track tl t ->
  fetch_result t = Return segments ->
  segments <> [] ->
  exists evs,
    YoutubeTranscriptLoader.load w url s
    = (Return (VideoResult (Py.join " " (map text segments))), after s evs)
    /\ evs = [CallVideoId url; CallListTranscripts vid;
              CallFetch (language_code t) (is_generated t)]
    /\ List.filter is_generate_content evs = [].
Proof.
  intros Hx Hv Hl Ht Hf Hne.
  eexists. split; [|split; reflexivity].
  rewrite (load_with_id w url vid s _ (Some segments) Hx Hv
             (fetch_english w vid tl t segments _ Hl Ht Hf)).
  rewrite after_after. simpl.
  destruct segments; [contradiction|reflexivity].
Qed.

Lemma english_track_loads_witness :
  exists evs,
    YoutubeTranscriptLoader.load (Examples.english_world Examples.hello)
      Examples.url Examples.s0
    = (Return (VideoResult "hello world"), after Examples.s0 evs)
    /\ evs = [CallVideoId Examples.url; CallListTranscripts Examples.vid;
              CallFetch "en" false]
    /\ List.filter is_generate_content evs = [].
Proof.
  apply (english_track_loads (Examples.english_world Examples.hello)
           Examples.url Examples.vid (Examples.english_tracks Examples.hello)
           (Examples.en_manual Examples.hello) Examples.hello Examples.s0).
  - reflexivity.
  - reflexivity.
  - reflexivity.
  - left. reflexivity.
  - reflexivity.
  - discriminate.
Defined.

(** ** The translated track *)

Section TranslatedTrack.

Variable w : World.
Variables url vid : str.
Variable tl : TranscriptList.
Variable t : Transcript.
Variable segments : list Segment.

Hypothesis Hid : extract_video_id w url = Return (Some vid).
Hypothesis Hvid : Py.truthy vid = true.
Hypothesis Hlist : list_transcripts w vid = Return tl.
Hypothesis Hno_en : no_english_track tl.
Hypothesis Hcand : generated_candidate tl t.
Hypothesis Hfetch : fetch_result t = Return segments.

(** The whole run of [load] on a video that has to be translated. *)
Lemma load_translated (s : State) :
  YoutubeTranscriptLoader.load w url s
  = (match option_map (fun raw => rebuild (Py.strip raw))
                      (translation_text w segments) with
     | None | Some [] =>
         Raise (MkExc TranscriptionError "No transcript available")
     | Some entries => Return (VideoResult (Py.join " " (map text entries)))
     end,
     after s (before_translation url vid t ++
              CallGenerateContent (prompt_of segments) ::
              match translation_failure w segments with
              | None => []
              | Some e =>
                  [Log logger ERROR ("Translation error: " +:+ exc_msg e)]
              end)).
Proof.
  apply (load_with_id w url vid s _ _ Hid Hvid).
  rewrite (fetch_no_english w vid tl _ Hlist Hno_en).
  rewrite (handle_translates w tl t segments _ Hcand Hfetch).
  rewrite translate_transcript_run.
  repeat rewrite after_after. reflexivity.
Qed.

End TranslatedTrack.




(** ** No transcript available *)

Lemma first_match_none (codes : list str) (g : gmap str Transcript) :
  Forall (fun c => g !! c = None) codes ->
  TranscriptApi.first_match codes [g] = None.
Proof.
  induction 1 as [|c cs Hc _ IH]; simpl; [reflexivity|].
  rewrite Hc. exact IH.
Qed.

Section Failures.

Variable w : World.
Variable vid : str.

Lemma english_or_not (tl : TranscriptList) :
  (exists t, english_track tl t) \/ no_english_track tl.
Proof.
  unfold english_track, no_english_track.
  destruct (manually_created_transcripts tl !! "en") as [t|]; [eauto|].
  destruct (generated_transcripts tl !! "en") as [t|]; eauto.
Qed.

Lemma failure_no_text (segments : list Segment) (e : PyExc) :
  translation_failure w segments = Some e ->
  translation_text w segments = None.
Proof.
  unfold translation_failure, translation_text.
  destruct (generate_content w (prompt_of segments)) as [response|];
    [|reflexivity].
  destruct (response_text response); [discriminate|reflexivity].
Qed.

Lemma no_failure_text (segments : list Segment) :
  translation_failure w segments = None ->
  exists raw, translation_text w segments = Some raw.
Proof.
  unfold translation_failure, translation_text.
  destruct (generate_content w (prompt_of segments)) as [response|];
    [|discriminate].
  destruct (response_text response); [eauto|discriminate].
Qed.

(** Once the routine goes on to the generated tracks, what it returns is
    what the handling of these tracks returns. *)
Lemma fallback_fetch (tl : TranscriptList) (s : State) :
  list_transcripts w vid = Return tl ->
  Fallback tl ->
  exists evs,
    _fetch_transcript w vid s
    = _handle_non_english_transcript w tl (after s evs).
Proof.
  intros Hl [Hn|t e Ht He Hc].
  - eexists. apply (fetch_no_english w vid tl s Hl Hn).
  - exists [CallListTranscripts vid;
            CallFetch (language_code t) (is_generated t)].
    unfold _fetch_transcript, TranscriptApi.fetch. run.
    rewrite Hl, (find_english w tl t Ht). run. rewrite He.
    unfold is_NoTranscriptFound. rewrite Hc. rewrite ?after_after. simpl.
    destruct (handle_total w tl
                (after s [CallListTranscripts vid;
                          CallFetch (language_code t) (is_generated t)]))
      as (r & s' & Hh).
    rewrite Hh. reflexivity.
Qed.

(** Every failure of a step is swallowed to [None]. *)
Lemma failure_fetch_none (s : State) :
  InternalFailure w vid ->
  exists s', _fetch_transcript w vid s = (Return None, s').
Proof.
  intros [e Hl|tl t e Hl Ht He Hc|tl Hl Hfb Hm|tl t e Hl Hfb Hg He
         |tl t segments e Hl Hfb Hg Hf Ht].
  - rewrite (fetch_listing_fails w vid e s Hl). eauto.
  - unfold _fetch_transcript, TranscriptApi.fetch. run.
    rewrite Hl, (find_english w tl t Ht). run. rewrite He.
    unfold is_NoTranscriptFound, is_transcript_error.
    destruct (exc_class e) eqn:Hcls; try contradiction; simpl;
      rewrite ?Hcls; simpl; eauto.
  - destruct (fallback_fetch tl s Hl Hfb) as (evs & ->).
    rewrite (handle_not_found w tl _ Hm). eauto.
  - destruct (fallback_fetch tl s Hl Hfb) as (evs & ->).
    rewrite (handle_fetch_fails w tl t e _ Hg He). eauto.
  - destruct (fallback_fetch tl s Hl Hfb) as (evs & ->).
    rewrite (handle_translates w tl t segments _ Hg Hf).
    rewrite translate_transcript_run, (failure_no_text segments e Ht).
    simpl. eauto.
Qed.

(** [None] comes from the failure of a step only. *)
Lemma fetch_none_failure (s s' : State) :
  _fetch_transcript w vid s = (Return None, s') ->
  InternalFailure w vid.
Proof.
  intros H.
  destruct (list_transcripts w vid) as [tl|e] eqn:Hl;
    [|exact (listing_fails w vid e Hl)].
  assert (Hfall : Fallback tl -> InternalFailure w vid).
  { intros Hfb. destruct (fallback_fetch tl s Hl Hfb) as (evs & Heq).
    rewrite Heq in H.
    destruct (TranscriptApi.first_match candidates [generated_transcripts tl])
      as [t'|] eqn:Hm; [|exact (no_candidate w vid tl Hl Hfb Hm)].
    destruct (fetch_result t') as [segments|e] eqn:Hf;
      [|exact (candidate_fetch_fails w vid tl t' e Hl Hfb Hm Hf)].
    destruct (translation_failure w segments) as [e|] eqn:Ht;
      [exact (translation_step_fails w vid tl t' segments e Hl Hfb Hm Hf Ht)|].
    exfalso. rewrite (handle_translates w tl t' segments _ Hm Hf) in H.
    rewrite translate_transcript_run in H.
    destruct (no_failure_text segments Ht) as (raw & Hraw).
    rewrite Hraw in H. discriminate H. }
  destruct (english_or_not tl) as [[t Ht]|Hn];
    [|exact (Hfall (fallback_no_english tl Hn))].
  destruct (fetch_result t) as [segments|e] eqn:Hf.
  - rewrite (fetch_english w vid tl t segments s Hl Ht Hf) in H.
    discriminate H.
  - destruct (exc_class e) eqn:Hcls;
      try (apply (english_fetch_fails w vid tl t e Hl Ht Hf);
           rewrite Hcls; discriminate).
    exact (Hfall (fallback_not_found tl t e Ht Hf Hcls)).
Qed.

(** The three situations of the specification are failures of a step. *)
Lemma unavailable_failure : Unavailable w vid -> InternalFailure w vid.
Proof.
  intros [e Hl _|tl Hl Hm Hg|tl t segments e Hl Hn Hc Hf Ht].
  - exact (listing_fails w vid e Hl).
  - apply (no_candidate w vid tl Hl).
    + apply fallback_no_english. split; [exact Hm|].
      inversion Hg; assumption.
    + apply first_match_none, Hg.
  - exact (translation_step_fails w vid tl t segments e Hl
             (fallback_no_english tl Hn) Hc Hf Ht).
Qed.

End Failures.

(** C3: for every video whose captions are disabled, for which neither an
    English track nor a generated candidate track is found, or whose
    translation fails, and more generally whenever a step of the pipeline
    fails (the listing, the fetch of a track, the search of a candidate, the
    translation), the fetch routine returns [None] and [load] raises
    [TranscriptionError] with the message "No transcript available".
    [None] comes from such a failure only.  None of the three internal
    routines ever raises, whatever the collaborators do; it is [load] that
    raises, from what the fetch routine returned. *)
Theorem no_transcript_available (w : World) (url vid : str) (s : State) :
  extract_video_id w url = Return (Some vid) ->
  Py.truthy vid = true ->
  Unavailable w vid \/ InternalFailure w vid ->
  (exists s',
     _fetch_transcript w vid (after s [CallVideoId url]) = (Return None, s')
     /\ YoutubeTranscriptLoader.load w url s
        = (Raise (MkExc TranscriptionError "No transcript available"), s'))
  /\ (forall w1 vid1 s1,
        InternalFailure w1 vid1 <->
        exists s2, _fetch_transcript w1 vid1 s1 = (Return None, s2))
  /\ (forall r s',
        _fetch_transcript w vid (after s [CallVideoId url]) = (Return r, s') ->
        YoutubeTranscriptLoader.load w url s
        = (match r with
           | None | Some [] =>
               Raise (MkExc TranscriptionError "No transcript available")
           | Some entries =>
               Return (VideoResult (Py.join " " (map text entries)))
           end, s'))
  /\ (forall w1 vid1 s1, exists r s2,
        _fetch_transcript w1 vid1 s1 = (Return r, s2))
  /\ (forall w1 tl1 s1, exists r s2,
        _handle_non_english_transcript w1 tl1 s1 = (Return r, s2))
  /\ (forall w1 segments1 s1, exists r s2,
        _translate_transcript w1 segments1 s1 = (Return r, s2)).
Proof.
  intros Hx Hv Hu.
  assert (Hfail : InternalFailure w vid).
  { destruct Hu as [Hu|Hu]; [apply unavailable_failure|]; exact Hu. }
  split; [|split; [|split; [|split; [|split]]]].
  - destruct (failure_fetch_none w vid (after s [CallVideoId url]) Hfail)
      as (s' & Hf).
    exists s'. split; [exact Hf|].
    apply (load_with_id w url vid s s' None Hx Hv Hf).
  - intros w1 vid1 s1. split.
    + apply failure_fetch_none.
    + intros [s2 H]. exact (fetch_none_failure w1 vid1 s1 s2 H).
  - intros r s' Hf. apply (load_with_id w url vid s s' r Hx Hv Hf).
  - intros w1 vid1 s1. apply fetch_total.
  - intros w1 tl1 s1. apply handle_total.
  - intros w1 segments1 s1. rewrite translate_transcript_run. eauto.
Qed.

Lemma no_transcript_available_witness :
  YoutubeTranscriptLoader.load Examples.disabled_world Examples.url Examples.s0
  = (Raise (MkExc TranscriptionError "No transcript available"),
     after Examples.s0
       [CallVideoId Examples.url; CallListTranscripts Examples.vid;
        Log logger ERROR
          "Transcript error: Subtitles are disabled for this video"])
  /\ YoutubeTranscriptLoader.load
       (Examples.video_world (Return (Some Examples.vid))
          (Raise Examples.unreachable) (Raise Examples.unreachable))
       Examples.url Examples.s0
     = (Raise (MkExc TranscriptionError "No transcript available"),
        after Examples.s0
          [CallVideoId Examples.url; CallListTranscripts Examples.vid;
           Log logger ERROR "Unexpected error: connection refused"]).
Proof.
  split.
  - destruct (no_transcript_available Examples.disabled_world Examples.url
                Examples.vid Examples.s0) as ((s' & Hf & Hload) & _).
    + reflexivity.
    + reflexivity.
    + left. apply (captions_disabled _ _ Examples.disabled); reflexivity.
    + rewrite Hload. f_equal.
      vm_compute in Hf. injection Hf as <-. reflexivity.
  - destruct (no_transcript_available
                (Examples.video_world (Return (Some Examples.vid))
                   (Raise Examples.unreachable) (Raise Examples.unreachable))
                Examples.url Examples.vid Examples.s0)
      as ((s' & Hf & Hload) & _).
    + reflexivity.
    + reflexivity.
    + right. apply (listing_fails _ _ Examples.unreachable). reflexivity.
    + rewrite Hload. f_equal.
      vm_compute in Hf. injection Hf as <-. reflexivity.
Defined.

(** ** No identifier *)

(** C4: for every URL from which no identifier comes out (the extractor
    raises, or yields nothing), [load] raises [DocumentLoaderError] with the
    message "Invalid YouTube URL"; the only call made is the extraction
    itself, so no call went over the network, and no file changed. *)
Theorem invalid_youtube_url (w : World) (url : str) (s : State) :
  no_identifier w url ->
  exists evs,
    YoutubeTranscriptLoader.load w url s
    = (Raise (MkExc DocumentLoaderError "Invalid YouTube URL"), after s evs)
    /\ List.filter is_network evs = []
    /\ List.filter (fun ev => negb (is_error_log ev)) evs = [CallVideoId url].
Proof.
  intros Hn. eexists. split.
  - apply load_without_id.
    destruct Hn as [[e He]|[He|He]]; rewrite He; auto.
  - destruct (extract_video_id w url); split; reflexivity.
Qed.

Lemma invalid_youtube_url_witness :
  exists evs,
    YoutubeTranscriptLoader.load
      (Examples.video_world (Raise Examples.no_match)
         (Raise Examples.unreachable) (Raise Examples.unreachable))
      "not a url" Examples.s0
    = (Raise (MkExc DocumentLoaderError "Invalid YouTube URL"),
       after Examples.s0 evs)
    /\ List.filter is_network evs = []
    /\ List.filter (fun ev => negb (is_error_log ev)) evs
       = [CallVideoId "not a url"].
Proof.
  apply (invalid_youtube_url
           (Examples.video_world (Raise Examples.no_match)
              (Raise Examples.unreachable) (Raise Examples.unreachable))
           "not a url" Examples.s0).
  left. exists Examples.no_match. reflexivity.
Defined.

(** ** An empty segment sequence *)

Lemma empty_pipeline_fetch (w : World) (vid : str) (s : State) :
  EmptyPipeline w vid ->
  exists evs,
    _fetch_transcript w vid s = (Return (Some []), after s evs)
    /\ List.filter is_error_log evs = [].
Proof.
  intros [tl t Hl Ht Hf|tl t segments raw Hl Hn Hc Hf Hr Hb].
  - rewrite (fetch_english w vid tl t [] s Hl Ht Hf). eauto.
  - rewrite (fetch_no_english w vid tl s Hl Hn).
    rewrite (handle_translates w tl t segments _ Hc Hf).
    rewrite translate_transcript_run. repeat rewrite after_after.
    rewrite Hr. simpl.
    apply rebuild_strip_nil_iff in Hb. rewrite Hb.
    assert (Hnone : translation_failure w segments = None).
    { unfold translation_text in Hr. unfold translation_failure.
      destruct (generate_content w (prompt_of segments)) as [response|];
        [|discriminate].
      destruct (response_text response); [reflexivity|discriminate]. }
    rewrite Hnone. eauto.
Qed.

(** C10: when the English track is fetched with no segment, or when the
    model answers the translation request with an empty or blank text, the
    fetch routine returns the empty segment sequence (not [None]) without
    logging any error, and [load] raises [TranscriptionError] with the
    message "No transcript available" all the same. *)
Theorem empty_transcript_is_absent (w : World) (url vid : str) (s : State) :
  extract_video_id w url = Return (Some vid) ->
  Py.truthy vid = true ->
  EmptyPipeline w vid ->
  exists evs,
    _fetch_transcript w vid (after s [CallVideoId url])
    = (Return (Some []), after s (CallVideoId url :: evs))
    /\ List.filter is_error_log evs = []
    /\ YoutubeTranscriptLoader.load w url s
       = (Raise (MkExc TranscriptionError "No transcript available"),
          after s (CallVideoId url :: evs)).
Proof.
  intros Hx Hv He.
  destruct (empty_pipeline_fetch w vid (after s [CallVideoId url]) He)
    as (evs & Hf & Hlog).
  rewrite after_after in Hf. simpl in Hf.
  exists evs. split; [exact Hf|]. split; [exact Hlog|].
  apply (load_with_id w url vid s _ (Some []) Hx Hv Hf).
Qed.

Lemma empty_transcript_is_absent_witness :
  exists evs,
    _fetch_transcript (Examples.spanish_world Scenarios.wide_blank)
      Examples.vid (after Examples.s0 [CallVideoId Examples.url])
    = (Return (Some []), after Examples.s0 (CallVideoId Examples.url :: evs))
    /\ List.filter is_error_log evs = []
    /\ YoutubeTranscriptLoader.load
         (Examples.spanish_world Scenarios.wide_blank) Examples.url
         Examples.s0
       = (Raise (MkExc TranscriptionError "No transcript available"),
          after Examples.s0 (CallVideoId Examples.url :: evs)).
Proof.
  apply (empty_transcript_is_absent
           (Examples.spanish_world Scenarios.wide_blank) Examples.url
           Examples.vid Examples.s0).
  - reflexivity.
  - reflexivity.
  - apply (blank_translation _ _ Examples.spanish_tracks Examples.es_generated
             Examples.hola Scenarios.wide_blank).
    + reflexivity.
    + split; reflexivity.
    + reflexivity.
    + reflexivity.
    + reflexivity.
    + reflexivity.
Defined.

(** ** The web page loader *)

(** C5: for every URL that starts neither with "http://" nor with
    "https://", [WebpageLoader.load] raises [DocumentLoaderError] with the
    message "Invalid URL format" and leaves the state as it was: no call was
    made, over the network or to the file system, and the sink holds what it
    held. *)
Theorem invalid_url_format (w : World) (url : str) (s : State) :
  Py.startswith url "http://" = false ->
  Py.startswith url "https://" = false ->
  WebpageLoader.load w url s
  = (Raise (MkExc DocumentLoaderError "Invalid URL format"), s).
Proof.
  intros H1 H2. unfold WebpageLoader.load, Py.startswith_any.
  cbn [existsb]. rewrite H1, H2. reflexivity.
Qed.

Lemma invalid_url_format_witness :
  WebpageLoader.load (Examples.page_world (Examples.page "never fetched"))
    "ftp://example.com"
    {| trace := []; files := {[ WebpageLoader.sink := "kept" ]} |}
  = (Raise (MkExc DocumentLoaderError "Invalid URL format"),
     {| trace := []; files := {[ WebpageLoader.sink := "kept" ]} |}).
Proof.
  apply (invalid_url_format
           (Examples.page_world (Examples.page "never fetched"))
           "ftp://example.com"
           {| trace := []; files := {[ WebpageLoader.sink := "kept" ]} |});
    reflexivity.
Defined.

(** What one successful call of [WebpageLoader.load] did. *)
Lemma webpage_load_success (w : World) (url : str) (s s' : State)
    (r : LoadResult) :
  WebpageLoader.load w url s = (Return r, s') ->
  exists d rest,
    web_base_loader_load w url = Return (d :: rest)
    /\ r = WebResult (Py.strip (page_content d))
    /\ trace s'
       = trace s ++ [CallWebBaseLoader url;
                     FileOpenW WebpageLoader.sink;
                     FileWrite WebpageLoader.sink (Py.strip (page_content d));
                     FileWrite WebpageLoader.sink (Py.nl +:+ Py.nl)]
    /\ files s'
       = <[WebpageLoader.sink := Py.strip (page_content d) +:+ Py.nl +:+ Py.nl]>
           (files s).
Proof.
  unfold WebpageLoader.load, open_w, write, index0.
  destruct (negb _); [discriminate|]. run.
  destruct (web_base_loader_load w url) as [[|d rest]|e]; run;
    try discriminate.
  destruct (open_w_error w WebpageLoader.sink); run; [discriminate|].
  destruct (write_error w WebpageLoader.sink (Py.strip (page_content d)));
    run; [discriminate|].
  destruct (write_error w WebpageLoader.sink (Py.nl +:+ Py.nl));
    run; [discriminate|].
  intros [= <- <-]. exists d, rest. simpl.
  split; [reflexivity|]. split; [reflexivity|].
  split; [rewrite <- !app_assoc; reflexivity|].
  rewrite !lookup_insert_eq. simpl. rewrite !insert_insert_eq. reflexivity.
Qed.

(** C6: every successful call of [WebpageLoader.load] returns the content of
    the first fetched document without the white space around it (the page
    is that content between two runs of white space, and the content neither
    starts nor ends with white space), and leaves in the sink exactly that
    content followed by two line feeds, whatever the sink held: the calls it
    makes are the fetch, the opening of the sink for writing and the two
    writes.  Hence after two successful calls in a row the sink holds the
    content of the second call only. *)
Theorem sink_is_overwritten (w1 w2 : World) (url1 url2 : str)
    (s0 s1 s2 : State) (r1 r2 : LoadResult) :
  WebpageLoader.load w1 url1 s0 = (Return r1, s1) ->
  WebpageLoader.load w2 url2 s1 = (Return r2, s2) ->
  exists d1 rest1 d2 rest2 c1 c2,
    web_base_loader_load w1 url1 = Return (d1 :: rest1)
    /\ web_base_loader_load w2 url2 = Return (d2 :: rest2)
    /\ stripped_of (page_content d1) c1
    /\ stripped_of (page_content d2) c2
    /\ r1 = WebResult c1
    /\ r2 = WebResult c2
    /\ files s1 !! WebpageLoader.sink = Some (c1 +:+ Py.nl +:+ Py.nl)
    /\ files s2 !! WebpageLoader.sink = Some (c2 +:+ Py.nl +:+ Py.nl)
    /\ files s2
       = <[WebpageLoader.sink := c2 +:+ Py.nl +:+ Py.nl]> (files s0)
    /\ trace s2
       = trace s1 ++ [CallWebBaseLoader url2;
                      FileOpenW WebpageLoader.sink;
                      FileWrite WebpageLoader.sink c2;
                      FileWrite WebpageLoader.sink (Py.nl +:+ Py.nl)].
Proof.
  intros H1 H2.
  destruct (webpage_load_success w1 url1 s0 s1 r1 H1)
    as (d1 & rest1 & Hw1 & Hr1 & _ & Hf1).
  destruct (webpage_load_success w2 url2 s1 s2 r2 H2)
    as (d2 & rest2 & Hw2 & Hr2 & Ht2 & Hf2).
  exists d1, rest1, d2, rest2.
  exists (Py.strip (page_content d1)), (Py.strip (page_content d2)).
  split; [exact Hw1|]. split; [exact Hw2|].
  split; [apply strip_spec|]. split; [apply strip_spec|].
  split; [exact Hr1|]. split; [exact Hr2|].
  split; [rewrite Hf1; apply lookup_insert_eq|].
  split; [rewrite Hf2; apply lookup_insert_eq|].
  split; [rewrite Hf2, Hf1; apply insert_insert_eq|exact Ht2].
Qed.

Lemma sink_is_overwritten_witness :
  fst (WebpageLoader.load
         (Examples.page_world (Examples.page Scenarios.padded_page))
         "https://example.com/b"
         (snd (WebpageLoader.load
                 (Examples.page_world (Examples.page " first page "))
                 "http://example.com/a" Examples.s0)))
  = Return (WebResult "second page")
  /\ files (snd (WebpageLoader.load
                   (Examples.page_world (Examples.page Scenarios.padded_page))
                   "https://example.com/b"
                   (snd (WebpageLoader.load
                           (Examples.page_world
                              (Examples.page " first page "))
                           "http://example.com/a" Examples.s0))))
       !! WebpageLoader.sink
     = Some ("second page" +:+ Py.nl +:+ Py.nl).
Proof.
  destruct (sink_is_overwritten
              (Examples.page_world (Examples.page " first page "))
              (Examples.page_world (Examples.page Scenarios.padded_page))
              "http://example.com/a" "https://example.com/b"
              Examples.s0
              (snd (WebpageLoader.load
                      (Examples.page_world (Examples.page " first page "))
                      "http://example.com/a" Examples.s0))
              (snd (WebpageLoader.load
                      (Examples.page_world
                         (Examples.page Scenarios.padded_page))
                      "https://example.com/b"
                      (snd (WebpageLoader.load
                              (Examples.page_world
                                 (Examples.page " first page "))
                              "http://example.com/a" Examples.s0))))
              (WebResult "first page") (WebResult "second page"))
    as (d1 & rest1 & d2 & rest2 & c1 & c2
        & _ & _ & _ & _ & _ & Hr2 & _ & Hs2 & _).
  - reflexivity.
  - reflexivity.
  - injection Hr2 as <-. split; [reflexivity|exact Hs2].
Defined.

(** ** The audio loader *)

(** C7: constructing [AudioLoader] with no key given (or an empty one) and
    no ASSEMBLY_API_KEY in the environment raises [DocumentLoaderError] with
    the message "Assembly AI API key not found", in the constructor and
    without any call made; with a key that is not empty, given or else taken
    from the environment, the construction succeeds and keeps that key. *)
Theorem audio_loader_needs_key (w : World) (key : option str) (s : State) :
  (Py.truthy_opt key = false ->
   environ w !! "ASSEMBLY_API_KEY" = None ->
   AudioLoader.__init__ w key s
   = (Raise (MkExc DocumentLoaderError "Assembly AI API key not found"), s))
  /\ (forall k,
        Py.truthy k = true ->
        key = Some k
        \/ (Py.truthy_opt key = false
            /\ environ w !! "ASSEMBLY_API_KEY" = Some k) ->
        AudioLoader.__init__ w key s = (Return (AudioLoader.Mk k), s)).
Proof.
  unfold AudioLoader.__init__, AudioLoader.api_key_or_env. split.
  - intros Hk He. rewrite Hk, He. reflexivity.
  - intros k Hk [->|[Hkey He]].
    + simpl. rewrite Hk. simpl. rewrite Hk. reflexivity.
    + rewrite Hkey, He, Hk. reflexivity.
Qed.

Lemma audio_loader_needs_key_witness :
  AudioLoader.__init__ (Examples.env_world ∅) None Examples.s0
  = (Raise (MkExc DocumentLoaderError "Assembly AI API key not found"),
     Examples.s0)
  /\ AudioLoader.__init__ (Examples.env_world ∅) (Some []) Examples.s0
     = (Raise (MkExc DocumentLoaderError "Assembly AI API key not found"),
        Examples.s0)
  /\ AudioLoader.__init__
       (Examples.env_world {[ "ASSEMBLY_API_KEY" := "0a1b2c" ]})
       None Examples.s0
     = (Return (AudioLoader.Mk "0a1b2c"), Examples.s0).
Proof.
  split; [|split].
  - apply (audio_loader_needs_key (Examples.env_world ∅) None Examples.s0);
      reflexivity.
  - apply (audio_loader_needs_key (Examples.env_world ∅) (Some [])
             Examples.s0); reflexivity.
  - apply (audio_loader_needs_key
             (Examples.env_world {[ "ASSEMBLY_API_KEY" := "0a1b2c" ]})
             None Examples.s0).
    + reflexivity.
    + right. split; reflexivity.
Defined.

(** ** The text and PDF loader *)

(** What [TextDocumentLoader.load] does, by the test it makes. *)
Lemma text_document_load_run (w : World) (file_path : str) (s : State) :
  TextDocumentLoader.load w file_path s
  = if Py.endswith file_path ".pdf" then
      (match pypdf_load_and_split w file_path with
       | Return pages => Return (PdfResult pages (length pages))
       | Raise e =>
           Raise (MkExc DocumentLoaderError
                    ("Error loading document: " +:+ exc_msg e))
       end, after s [CallPyPDFLoader file_path])
    else
      (match text_loader_load w file_path with
       | Return data => Return (TextResult data)
       | Raise e =>
           Raise (MkExc DocumentLoaderError
                    ("Error loading document: " +:+ exc_msg e))
       end, after s [CallTextLoader file_path]).
Proof.
  unfold TextDocumentLoader.load, TextDocumentLoader._load_pdf,
    TextDocumentLoader._load_text.
  destruct (Py.endswith file_path ".pdf"); run.
  - destruct (pypdf_load_and_split w file_path); reflexivity.
  - destruct (text_loader_load w file_path); reflexivity.
Qed.

(** C8: [TextDocumentLoader.load] chooses by the suffix of the path alone.
    On a path that ends in ".pdf" (the path is some stem followed by these
    four characters) it calls the paginated extraction and returns its pages
    together with their number; on any other path it calls the
    whole-document extraction and returns its content.  The extraction that
    is not chosen is not called, and an exception of the one that is comes
    out as [DocumentLoaderError] with its message after
    "Error loading document: ". *)
Theorem text_document_dispatch (w : World) (file_path : str) (s : State) :
  ((exists stem, file_path = stem +:+ ".pdf") ->
   TextDocumentLoader.load w file_path s
   = (match pypdf_load_and_split w file_path with
      | Return pages => Return (PdfResult pages (length pages))
      | Raise e =>
          Raise (MkExc DocumentLoaderError
                   ("Error loading document: " +:+ exc_msg e))
      end, after s [CallPyPDFLoader file_path]))
  /\ ((forall stem, file_path <> stem +:+ ".pdf") ->
      TextDocumentLoader.load w file_path s
      = (match text_loader_load w file_path with
         | Return data => Return (TextResult data)
         | Raise e =>
             Raise (MkExc DocumentLoaderError
                      ("Error loading document: " +:+ exc_msg e))
         end, after s [CallTextLoader file_path])).
Proof.
  rewrite text_document_load_run. split.
  - intros Hs. apply endswith_iff in Hs. rewrite Hs. reflexivity.
  - intros Hn. apply not_suffix in Hn. rewrite Hn. reflexivity.
Qed.

Lemma text_document_dispatch_witness :
  TextDocumentLoader.load Scenarios.both_world "slides.pdf" Examples.s0
  = (Return (PdfResult [MkDocument "page 1" []; MkDocument "page 2" []] 2),
     after Examples.s0 [CallPyPDFLoader "slides.pdf"])
  /\ TextDocumentLoader.load Scenarios.both_world "slides.PDF" Examples.s0
     = (Return (TextResult [MkDocument "the whole text" []]),
        after Examples.s0 [CallTextLoader "slides.PDF"])
  /\ TextDocumentLoader.load Scenarios.both_world "pdf" Examples.s0
     = (Return (TextResult [MkDocument "the whole text" []]),
        after Examples.s0 [CallTextLoader "pdf"]).
Proof.
  split; [|split].
  - apply (proj1 (text_document_dispatch Scenarios.both_world "slides.pdf"
                    Examples.s0)).
    exists "slides". reflexivity.
  - apply (proj2 (text_document_dispatch Scenarios.both_world "slides.PDF"
                    Examples.s0)).
    apply not_suffix. reflexivity.
  - apply (proj2 (text_document_dispatch Scenarios.both_world "pdf"
                    Examples.s0)).
    apply not_suffix. reflexivity.
Defined.

(** ** The translation step *)

(** C9: the translation step never raises.  When the call of the model or
    the reading of its text fails with an exception, the step logs
    "Translation error: " followed by the message of the exception and
    returns [None]; otherwise it returns the segments rebuilt from the
    stripped text.  In both cases the model was called once. *)
Theorem translation_never_raises (w : World) (segments : list Segment)
    (s : State) :
  exists r evs,
    _translate_transcript w segments s = (Return r, after s evs)
    /\ match translation_failure w segments with
       | Some e =>
           r = None
           /\ evs = [CallGenerateContent (prompt_of segments);
                     Log logger ERROR ("Translation error: " +:+ exc_msg e)]
       | None =>
           exists raw,
             translation_text w segments = Some raw
             /\ r = Some (rebuild (Py.strip raw))
             /\ evs = [CallGenerateContent (prompt_of segments)]
       end.
Proof.
  rewrite translate_transcript_run. do 2 eexists. split; [reflexivity|].
  unfold translation_failure, translation_text.
  destruct (generate_content w (prompt_of segments)) as [response|e].
  - destruct (response_text response) as [raw|e]; simpl; eauto.
  - simpl. auto.
Qed.

(** ** The loaders on concrete inputs *)

Example strip_both_ends :
  Py.strip (" a b " +:+ Py.nl) = "a b".
Proof. reflexivity. Qed.

Example strip_wide_spaces :
  Py.strip Scenarios.padded_page = "second page"
  /\ Py.strip Scenarios.wide_blank = []
  /\ Py.blank Scenarios.wide_blank = true.
Proof. repeat split; reflexivity. Qed.

(** The zero width space, the Mongolian vowel separator, the word joiner
    and the byte order mark are not white space. *)
Example not_white_space :
  existsb Py.is_space
    [0x8; 0xE; 0x1B; 0x21; 0x84; 0x86; 0x9F; 0xA1; 0x180E; 0x1FFF; 0x200B;
     0x2027; 0x202A; 0x2060; 0x2FFF; 0x3001; 0xFEFF]%N
  = false.
Proof. reflexivity. Qed.

Example split_keeps_empty_lines :
  Py.split_lines ("a" +:+ Py.nl +:+ Py.nl +:+ " b " +:+ Py.nl)
  = ["a"; []; " b "; []].
Proof. reflexivity. Qed.

Example rebuild_answer :
  rebuild (Py.strip Examples.answer)
  = [MkSegment "hello" None None; MkSegment "world" None None].
Proof. reflexivity. Qed.

Example suffix_is_case_sensitive :
  Py.endswith "slides.pdf" ".pdf" = true
  /\ Py.endswith "slides.PDF" ".pdf" = false
  /\ Py.endswith "pdf" ".pdf" = false.
Proof. repeat split; reflexivity. Qed.

Example pdf_pages_counted :
  TextDocumentLoader.load
    (Examples.file_world
       (Return [MkDocument "page 1" []; MkDocument "page 2" []])
       (Raise Examples.unreachable))
    "slides.pdf" Examples.s0
  = (Return (PdfResult [MkDocument "page 1" []; MkDocument "page 2" []] 2),
     after Examples.s0 [CallPyPDFLoader "slides.pdf"]).
Proof. reflexivity. Qed.

Example text_failure_wrapped :
  TextDocumentLoader.load
    (Examples.file_world (Return []) (Raise Examples.unreachable))
    "notes.txt" Examples.s0
  = (Raise (MkExc DocumentLoaderError
              "Error loading document: connection refused"),
     after Examples.s0 [CallTextLoader "notes.txt"]).
Proof. reflexivity. Qed.

Example no_candidate_track :
  YoutubeTranscriptLoader.load
    (Examples.video_world (Return (Some Examples.vid))
       (Return Examples.italian_tracks) (Raise Examples.unreachable))
    Examples.url Examples.s0
  = (Raise (MkExc TranscriptionError "No transcript available"),
     after Examples.s0
       [CallVideoId Examples.url; CallListTranscripts Examples.vid;
        Log logger ERROR
          "Error handling non-English transcript: No transcripts were found"]).
Proof. reflexivity. Qed.

Example translation_down :
  YoutubeTranscriptLoader.load
    (Examples.video_world (Return (Some Examples.vid))
       (Return Examples.spanish_tracks) (Raise Examples.unreachable))
    Examples.url Examples.s0
  = (Raise (MkExc TranscriptionError "No transcript available"),
     after Examples.s0
       (before_translation Examples.url Examples.vid Examples.es_generated
        ++ [CallGenerateContent (prompt_of Examples.hola);
            Log logger ERROR "Translation error: connection refused"])).
Proof. reflexivity. Qed.

Example audio_without_documents :
  AudioLoader.load
    (Examples.env_world ∅) (AudioLoader.Mk "0a1b2c") "talk.mp3" Examples.s0
  = (Raise (MkExc DocumentLoaderError
              "Error transcribing audio: connection refused"),
     after Examples.s0 [CallAssemblyAI "talk.mp3" "0a1b2c"]).
Proof. reflexivity. Qed.



(** ** More on the audio loader *)

Lemma audio_load_run (w : World) (self : AudioLoader.t) (file_path : str)
    (s : State) :
  AudioLoader.load w self file_path s
  = (match assemblyai_load w file_path (AudioLoader.api_key self) with
     | Return (d :: _) => Return (AudioResult (page_content d) (metadata d))
     | Return [] =>
         Raise (MkExc DocumentLoaderError
                  "Error transcribing audio: list index out of range")
     | Raise e =>
         Raise (MkExc DocumentLoaderError
                  ("Error transcribing audio: " +:+ exc_msg e))
     end,
     after s [CallAssemblyAI file_path (AudioLoader.api_key self)]).
Proof.
  unfold AudioLoader.load, index0. run.
  destruct (assemblyai_load w file_path (AudioLoader.api_key self))
    as [[|d rest]|e]; reflexivity.
Qed.

(** X1: whatever the transcription service does, the only exception
    [AudioLoader.load] raises is a [DocumentLoaderError] whose message
    starts with "Error transcribing audio: "; the service was called once,
    with the path and the key of the loader. *)
Theorem audio_load_raises_loader_errors_only (w : World)
    (self : AudioLoader.t) (file_path : str) (s : State) (e : PyExc) :
  fst (AudioLoader.load w self file_path s) = Raise e ->
  exc_class e = DocumentLoaderError
  /\ Py.startswith (exc_msg e) "Error transcribing audio: " = true
  /\ snd (AudioLoader.load w self file_path s)
     = after s [CallAssemblyAI file_path (AudioLoader.api_key self)].
Proof.
  rewrite audio_load_run. simpl.
  destruct (assemblyai_load w file_path (AudioLoader.api_key self))
    as [[|d rest]|e']; intros [= <-]; repeat split;
    try (simpl; apply startswith_append).
Qed.

Lemma audio_load_raises_loader_errors_only_witness :
  exc_class (MkExc DocumentLoaderError
               "Error transcribing audio: connection refused")
  = DocumentLoaderError
  /\ Py.startswith "Error transcribing audio: connection refused"
       "Error transcribing audio: " = true
  /\ snd (AudioLoader.load
            (Scenarios.audio_world ∅ (Raise Examples.unreachable))
            (AudioLoader.Mk "0a1b2c") "talk.mp3" Examples.s0)
     = after Examples.s0 [CallAssemblyAI "talk.mp3" "0a1b2c"].
Proof.
  apply (audio_load_raises_loader_errors_only
           (Scenarios.audio_world ∅ (Raise Examples.unreachable))
           (AudioLoader.Mk "0a1b2c") "talk.mp3" Examples.s0
           (MkExc DocumentLoaderError
              "Error transcribing audio: connection refused")).
  reflexivity.
Defined.

(** X2: when the transcription service answers without an exception but
    with no document, [AudioLoader.load] raises [DocumentLoaderError] with
    the message of the failed [docs[0]]; when it answers with documents, the
    result is made of the first one alone. *)
Theorem audio_output_first_document (w : World) (self : AudioLoader.t)
    (file_path : str) (s : State) (docs : list Document) :
  assemblyai_load w file_path (AudioLoader.api_key self) = Return docs ->
  fst (AudioLoader.load w self file_path s)
  = match head docs with
    | None =>
        Raise (MkExc DocumentLoaderError
                 "Error transcribing audio: list index out of range")
    | Some d => Return (AudioResult (page_content d) (metadata d))
    end.
Proof.
  intros Hd. rewrite audio_load_run, Hd. destruct docs; reflexivity.
Qed.

Lemma audio_output_first_document_witness :
  fst (AudioLoader.load (Scenarios.audio_world ∅ (Return []))
         (AudioLoader.Mk "0a1b2c") "talk.mp3" Examples.s0)
  = Raise (MkExc DocumentLoaderError
             "Error transcribing audio: list index out of range").
Proof.
  apply (audio_output_first_document (Scenarios.audio_world ∅ (Return []))
           (AudioLoader.Mk "0a1b2c") "talk.mp3" Examples.s0 []).
  reflexivity.
Defined.

(** X3: a loader that [AudioLoader.__init__] returned holds a key that is
    not empty: the key given when it is not empty, the ASSEMBLY_API_KEY of
    the environment otherwise.  The construction made no call, and every
    later [load] sends exactly that key to the transcription service. *)
Theorem constructed_loader_sends_its_key (w : World) (key : option str)
    (s s' : State) (self : AudioLoader.t) :
  AudioLoader.__init__ w key s = (Return self, s') ->
  s' = s
  /\ Py.truthy (AudioLoader.api_key self) = true
  /\ (if Py.truthy_opt key then key
      else environ w !! "ASSEMBLY_API_KEY") = Some (AudioLoader.api_key self)
  /\ forall w1 file_path s1,
       snd (AudioLoader.load w1 self file_path s1)
       = after s1 [CallAssemblyAI file_path (AudioLoader.api_key self)].
Proof.
  unfold AudioLoader.__init__, AudioLoader.api_key_or_env.
  intros H.
  destruct (if Py.truthy_opt key then key
            else environ w !! "ASSEMBLY_API_KEY") as [k|]; [|discriminate H].
  destruct (Py.truthy k) eqn:Hk; [|discriminate H].
  injection H as <- <-. simpl.
  repeat split; try assumption.
  intros w1 file_path s1. rewrite audio_load_run. reflexivity.
Qed.

Lemma constructed_loader_sends_its_key_witness :
  Py.truthy "0a1b2c" = true
  /\ snd (AudioLoader.load (Scenarios.audio_world ∅ (Return []))
            (AudioLoader.Mk "0a1b2c") "talk.mp3" Examples.s0)
     = after Examples.s0 [CallAssemblyAI "talk.mp3" "0a1b2c"].
Proof.
  destruct (constructed_loader_sends_its_key
              (Examples.env_world {[ "ASSEMBLY_API_KEY" := "fromenv" ]})
              (Some "0a1b2c") Examples.s0 Examples.s0
              (AudioLoader.Mk "0a1b2c")) as (_ & Hk & _ & Hload).
  - reflexivity.
  - split; [exact Hk|].
    apply (Hload (Scenarios.audio_world ∅ (Return [])) "talk.mp3" Examples.s0).
Defined.

(** ** More on the web page loader *)

Section WebpageFacts.

Variable w : World.

(** Every run of [WebpageLoader.load]. *)
Lemma webpage_load_run (url : str) (s : State) :
  WebpageLoader.load w url s
  = if negb (http_url url) then
      (Raise (MkExc DocumentLoaderError "Invalid URL format"), s)
    else
      match web_base_loader_load w url with
      | Raise e => (Raise (wrapped e), after s [CallWebBaseLoader url])
      | Return [] =>
          (Raise (wrapped (MkExc (OtherException "IndexError")
                             "list index out of range")),
           after s [CallWebBaseLoader url])
      | Return (d :: _) =>
          let content := Py.strip (page_content d) in
          match open_w_error w WebpageLoader.sink with
          | Some e =>
              (Raise (wrapped e),
               after s [CallWebBaseLoader url; FileOpenW WebpageLoader.sink])
          | None =>
              match write_error w WebpageLoader.sink content with
              | Some e =>
                  (Raise (wrapped e),
                   {| trace := trace s ++
                        [CallWebBaseLoader url; FileOpenW WebpageLoader.sink;
                         FileWrite WebpageLoader.sink content];
                      files := <[WebpageLoader.sink := []]> (files s) |})
              | None =>
                  match write_error w WebpageLoader.sink (Py.nl +:+ Py.nl) with
                  | Some e =>
                      (Raise (wrapped e),
                       {| trace := trace s ++
                            [CallWebBaseLoader url;
                             FileOpenW WebpageLoader.sink;
                             FileWrite WebpageLoader.sink content;
                             FileWrite WebpageLoader.sink (Py.nl +:+ Py.nl)];
                          files := <[WebpageLoader.sink := content]> (files s) |})
                  | None =>
                      (Return (WebResult content),
                       {| trace := trace s ++
                            [CallWebBaseLoader url;
                             FileOpenW WebpageLoader.sink;
                             FileWrite WebpageLoader.sink content;
                             FileWrite WebpageLoader.sink (Py.nl +:+ Py.nl)];
                          files := <[WebpageLoader.sink :=
                                       content +:+ Py.nl +:+ Py.nl]> (files s) |})
                  end
              end
          end
      end.
Proof.
  unfold WebpageLoader.load, http_url, open_w, write, index0, wrapped.
  destruct (negb _); [reflexivity|]. run.
  destruct (web_base_loader_load w url) as [[|d rest]|e]; run;
    try reflexivity.
  destruct (open_w_error w WebpageLoader.sink); run; [reflexivity|].
  destruct (write_error w WebpageLoader.sink (Py.strip (page_content d)));
    run.
  { unfold after. simpl. rewrite <- !app_assoc. reflexivity. }
  rewrite !lookup_insert_eq. simpl. rewrite !insert_insert_eq.
  destruct (write_error w WebpageLoader.sink (Py.nl +:+ Py.nl)); run;
    unfold after; simpl;
    rewrite ?lookup_insert_eq, ?insert_insert_eq; simpl;
    rewrite <- !app_assoc; reflexivity.
Qed.

End WebpageFacts.

(** X4: whatever the page fetch and the file system do, the only exception
    [WebpageLoader.load] raises is a [DocumentLoaderError], either
    "Invalid URL format" or a message that starts with
    "Error loading webpage: ". *)
Theorem webpage_load_raises_loader_errors_only (w : World) (url : str)
    (s : State) (e : PyExc) :
  fst (WebpageLoader.load w url s) = Raise e ->
  exc_class e = DocumentLoaderError
  /\ (exc_msg e = "Invalid URL format"
      \/ Py.startswith (exc_msg e) "Error loading webpage: " = true).
Proof.
  rewrite webpage_load_run.
  destruct (negb (http_url url)); [intros [= <-]; auto|].
  destruct (web_base_loader_load w url) as [[|d rest]|e'];
    [intros [= <-]; split; [reflexivity|right; apply startswith_append]
    | |intros [= <-]; split; [reflexivity|right; apply startswith_append]].
  simpl.
  destruct (open_w_error w WebpageLoader.sink);
    [intros [= <-]; split; [reflexivity|right; apply startswith_append]|].
  destruct (write_error w WebpageLoader.sink (Py.strip (page_content d)));
    [intros [= <-]; split; [reflexivity|right; apply startswith_append]|].
  destruct (write_error w WebpageLoader.sink (Py.nl +:+ Py.nl));
    [intros [= <-]; split; [reflexivity|right; apply startswith_append]|].
  discriminate.
Qed.

Lemma webpage_load_raises_loader_errors_only_witness :
  exc_class (wrapped Examples.unreachable) = DocumentLoaderError
  /\ (exc_msg (wrapped Examples.unreachable) = "Invalid URL format"
      \/ Py.startswith (exc_msg (wrapped Examples.unreachable))
           "Error loading webpage: " = true).
Proof.
  apply (webpage_load_raises_loader_errors_only
           (Examples.page_world (Raise Examples.unreachable))
           "https://example.com" Examples.s0 (wrapped Examples.unreachable)).
  reflexivity.
Defined.

(** X5: whether it returns or raises, [WebpageLoader.load] changes no file
    but the sink. *)
Theorem webpage_load_keeps_other_files (w : World) (url path : str)
    (s : State) :
  path <> WebpageLoader.sink ->
  files (snd (WebpageLoader.load w url s)) !! path = files s !! path.
Proof.
  intros Hp. rewrite webpage_load_run.
  destruct (negb (http_url url)); [reflexivity|].
  destruct (web_base_loader_load w url) as [[|d rest]|e]; try reflexivity.
  simpl.
  destruct (open_w_error w WebpageLoader.sink); [reflexivity|].
  destruct (write_error w WebpageLoader.sink (Py.strip (page_content d)));
    [simpl; apply lookup_insert_ne; congruence|].
  destruct (write_error w WebpageLoader.sink (Py.nl +:+ Py.nl));
    simpl; apply lookup_insert_ne; congruence.
Qed.

Lemma webpage_load_keeps_other_files_witness :
  files (snd (WebpageLoader.load
                (Examples.page_world (Examples.page "a new page"))
                "https://example.com" Scenarios.used)) !! "notes.txt"
  = Some "keep me".
Proof.
  rewrite (webpage_load_keeps_other_files
             (Examples.page_world (Examples.page "a new page"))
             "https://example.com" "notes.txt" Scenarios.used).
  - reflexivity.
  - discriminate.
Defined.



(** X7: when the page fetch raises, or yields no document, or the sink
    cannot be opened, [WebpageLoader.load] raises and no file has changed:
    the sink holds what it held. *)
Theorem failed_fetch_keeps_the_sink (w : World) (url : str) (s : State) :
  (exists e, web_base_loader_load w url = Raise e)
  \/ web_base_loader_load w url = Return []
  \/ (exists e, open_w_error w WebpageLoader.sink = Some e) ->
  (exists e, fst (WebpageLoader.load w url s) = Raise e)
  /\ files (snd (WebpageLoader.load w url s)) = files s.
Proof.
  intros H. rewrite webpage_load_run.
  destruct (negb (http_url url)); [eauto|].
  destruct H as [[e He]|[He|[e He]]].
  - rewrite He. eauto.
  - rewrite He. eauto.
  - destruct (web_base_loader_load w url) as [[|d rest]|e']; eauto.
    simpl. rewrite He. eauto.
Qed.

Lemma failed_fetch_keeps_the_sink_witness :
  (exists e,
     fst (WebpageLoader.load (Examples.page_world (Return []))
            "https://example.com" Scenarios.used) = Raise e)
  /\ files (snd (WebpageLoader.load (Examples.page_world (Return []))
                   "https://example.com" Scenarios.used))
     = files Scenarios.used.
Proof.
  apply (failed_fetch_keeps_the_sink (Examples.page_world (Return []))
           "https://example.com" Scenarios.used).
  right. left. reflexivity.
Defined.

(** X8: the content a successful [WebpageLoader.load] returns neither
    starts nor ends with white space, and it is a fixed point of [strip];
    the first fetched document is that content between two runs of white
    space. *)
Theorem webpage_content_is_stripped (w : World) (url : str)
    (s s' : State) (r : LoadResult) :
  WebpageLoader.load w url s = (Return r, s') ->
  exists d rest content,
    web_base_loader_load w url = Return (d :: rest)
    /\ r = WebResult content
    /\ bare content
    /\ Py.strip content = content
    /\ stripped_of (page_content d) content.
Proof.
  intros H. destruct (webpage_load_success w url s s' r H)
    as (d & rest & Hw & -> & _).
  exists d, rest, (Py.strip (page_content d)).
  split; [exact Hw|]. split; [reflexivity|].
  split; [apply strip_spec|].
  split; [apply strip_idempotent|apply strip_spec].
Qed.

Lemma webpage_content_is_stripped_witness :
  exists d rest content,
    web_base_loader_load
      (Examples.page_world (Examples.page Scenarios.padded_page))
      "http://example.com/a"
    = Return (d :: rest)
    /\ WebResult "second page" = WebResult content
    /\ bare content
    /\ Py.strip content = content
    /\ stripped_of (page_content d) content.
Proof.
  apply (webpage_content_is_stripped
           (Examples.page_world (Examples.page Scenarios.padded_page))
           "http://example.com/a" Examples.s0
           (snd (WebpageLoader.load
                   (Examples.page_world (Examples.page Scenarios.padded_page))
                   "http://example.com/a" Examples.s0))
           (WebResult "second page")).
  reflexivity.
Defined.

(** X9: a page whose content is blank is loaded all the same, unlike an
    empty transcript: [WebpageLoader.load] returns the empty content and
    the sink holds two line feeds. *)
Theorem blank_page_is_loaded (w : World) (url : str) (s : State)
    (d : Document) (rest : list Document) :
  http_url url = true ->
  web_base_loader_load w url = Return (d :: rest) ->
  Py.blank (page_content d) = true ->
  open_w_error w WebpageLoader.sink = None ->
  (forall data, write_error w WebpageLoader.sink data = None) ->
  fst (WebpageLoader.load w url s) = Return (WebResult [])
  /\ files (snd (WebpageLoader.load w url s)) !! WebpageLoader.sink
     = Some (Py.nl +:+ Py.nl).
Proof.
  intros Hu Hd Hb Ho Hw. rewrite webpage_load_run, Hu, Hd. simpl.
  rewrite Ho, !Hw. apply strip_empty_iff in Hb. rewrite Hb. simpl.
  split; [reflexivity|apply lookup_insert_eq].
Qed.

Lemma blank_page_is_loaded_witness :
  fst (WebpageLoader.load
         (Examples.page_world (Examples.page Scenarios.wide_blank))
         "https://example.com" Scenarios.used)
  = Return (WebResult [])
  /\ files (snd (WebpageLoader.load
                   (Examples.page_world (Examples.page Scenarios.wide_blank))
                   "https://example.com" Scenarios.used))
       !! WebpageLoader.sink
     = Some (Py.nl +:+ Py.nl).
Proof.
  apply (blank_page_is_loaded
           (Examples.page_world (Examples.page Scenarios.wide_blank))
           "https://example.com" Scenarios.used
           (MkDocument Scenarios.wide_blank
              [("source", "https://example.com")]) []);
    reflexivity.
Defined.

(** ** More on the transcript loader *)

Section YoutubeShape.

Variable w : World.

Lemma count_calls_app (f : Event -> bool) (a b : list Event) :
  count_calls f (a ++ b) = count_calls f a + count_calls f b.
Proof. unfold count_calls. rewrite List.filter_app, length_app. reflexivity. Qed.

Lemma translate_shape (segments : list Segment) (s : State) :
  exists r evs,
    _translate_transcript w segments s = (Return r, after s evs)
    /\ count_calls is_generate_content evs = 1
    /\ count_calls is_fetch evs = 0.
Proof.
  rewrite translate_transcript_run. do 2 eexists. split; [reflexivity|].
  destruct (translation_failure w segments); split; reflexivity.
Qed.

Lemma handle_shape (tl : TranscriptList) (s : State) :
  exists r evs,
    _handle_non_english_transcript w tl s = (Return r, after s evs)
    /\ count_calls is_generate_content evs <= 1
    /\ count_calls is_fetch evs <= 1.
Proof.
  destruct (TranscriptApi.first_match candidates [generated_transcripts tl])
    as [t|] eqn:Hf.
  - destruct (fetch_result t) as [segments|e] eqn:He.
    + rewrite (handle_translates w tl t segments s Hf He).
      destruct (translate_shape segments
                  (after s [Log logger INFO
                              "Found non-English transcript. Translating...";
                            CallFetch (language_code t) (is_generated t)]))
        as (r & evs & -> & Hg & Hfe).
      rewrite after_after. do 2 eexists. split; [reflexivity|].
      rewrite !count_calls_app, Hg, Hfe. split; unfold count_calls in *; simpl; lia.
    + rewrite (handle_fetch_fails w tl t e s Hf He).
      do 2 eexists. split; [reflexivity|]. split; unfold count_calls in *; simpl; lia.
  - rewrite (handle_not_found w tl s Hf).
    do 2 eexists. split; [reflexivity|]. split; unfold count_calls in *; simpl; lia.
Qed.

Lemma fetch_shape (vid : str) (s : State) :
  exists r evs,
    _fetch_transcript w vid s = (Return r, after s evs)
    /\ count_calls is_generate_content evs <= 1
    /\ count_calls is_fetch evs <= 2.
Proof.
  unfold _fetch_transcript, TranscriptApi.fetch. run.
  destruct (list_transcripts w vid) as [tl|e]; simpl.
  - destruct (TranscriptApi.find_transcript w tl ["en"]) as [t|e]; simpl.
    + destruct (fetch_result t) as [segments|e]; simpl.
      { rewrite !after_after. do 2 eexists. split; [reflexivity|].
        split; unfold count_calls in *; simpl; lia. }
      destruct (is_NoTranscriptFound e).
      * match goal with
        | |- context [_handle_non_english_transcript w tl ?s0] =>
            destruct (handle_shape tl s0) as (r & evs & Hh & Hg & Hf)
        end.
        rewrite Hh. simpl. rewrite !after_after.
        do 2 eexists. split; [reflexivity|].
        rewrite !count_calls_app. split; unfold count_calls in *; simpl; lia.
      * destruct (is_transcript_error e); simpl; rewrite !after_after;
          do 2 eexists; (split; [reflexivity|]); split; unfold count_calls in *; simpl; lia.
    + destruct (is_NoTranscriptFound e).
      * destruct (handle_shape tl (after s [CallListTranscripts vid]))
          as (r & evs & Hh & Hg & Hf).
        rewrite Hh. simpl. rewrite !after_after.
        do 2 eexists. split; [reflexivity|].
        rewrite !count_calls_app. split; unfold count_calls in *; simpl; lia.
      * destruct (is_transcript_error e); simpl; rewrite !after_after;
          do 2 eexists; (split; [reflexivity|]); split; unfold count_calls in *; simpl; lia.
  - destruct (is_transcript_error e); simpl; rewrite !after_after;
      do 2 eexists; (split; [reflexivity|]); split; unfold count_calls in *; simpl; lia.
Qed.

End YoutubeShape.

(** X10: whatever the collaborators do, [YoutubeTranscriptLoader.load]
    raises nothing but [DocumentLoaderError] "Invalid YouTube URL" and
    [TranscriptionError] "No transcript available": no exception of a
    collaborator reaches the caller as it is. *)
Theorem youtube_load_raises_two_errors_only (w : World) (url : str)
    (s : State) (e : PyExc) :
  fst (YoutubeTranscriptLoader.load w url s) = Raise e ->
  e = MkExc DocumentLoaderError "Invalid YouTube URL"
  \/ e = MkExc TranscriptionError "No transcript available".
Proof.
  unfold YoutubeTranscriptLoader.load, bind. rewrite get_video_id_run.
  destruct (extract_video_id w url) as [[vid|]|e']; simpl;
    try (intros [= <-]; auto; fail).
  destruct (Py.truthy vid); simpl; [|intros [= <-]; auto].
  destruct (fetch_total w vid (after s [CallVideoId url])) as (r & s' & ->).
  destruct r as [[|seg segs]|]; simpl; intros [= <-]; auto.
Qed.

Lemma youtube_load_raises_two_errors_only_witness :
  MkExc TranscriptionError "No transcript available"
  = MkExc DocumentLoaderError "Invalid YouTube URL"
  \/ MkExc TranscriptionError "No transcript available"
     = MkExc TranscriptionError "No transcript available".
Proof.
  apply (youtube_load_raises_two_errors_only Examples.disabled_world
           Examples.url Examples.s0
           (MkExc TranscriptionError "No transcript available")).
  reflexivity.
Defined.

(** X11: every call of [YoutubeTranscriptLoader.load], returning or
    raising, leaves the files as they were, only adds events to the trace,
    calls the generative model at most once and fetches at most two
    tracks. *)
Theorem youtube_load_is_frugal (w : World) (url : str) (s : State) :
  exists evs,
    snd (YoutubeTranscriptLoader.load w url s) = after s evs
    /\ files (snd (YoutubeTranscriptLoader.load w url s)) = files s
    /\ count_calls is_generate_content evs <= 1
    /\ count_calls is_fetch evs <= 2.
Proof.
  unfold YoutubeTranscriptLoader.load, bind. rewrite get_video_id_run.
  assert (Hnone : forall tail,
             count_calls is_generate_content (CallVideoId url :: tail)
             = count_calls is_generate_content tail
             /\ count_calls is_fetch (CallVideoId url :: tail)
                = count_calls is_fetch tail) by (split; reflexivity).
  destruct (extract_video_id w url) as [[vid|]|e']; simpl;
    try (eexists; split; [reflexivity|]; split; [reflexivity|];
         split; unfold count_calls in *; simpl; lia).
  destruct (Py.truthy vid); simpl;
    [|eexists; split; [reflexivity|]; split; [reflexivity|];
      split; unfold count_calls in *; simpl; lia].
  destruct (fetch_shape w vid (after s [CallVideoId url]))
    as (r & evs & -> & Hg & Hf).
  rewrite after_after.
  exists ([CallVideoId url] ++ evs).
  destruct r as [[|seg segs]|]; simpl;
    (split; [reflexivity|]); (split; [reflexivity|]);
    destruct (Hnone evs) as [-> ->]; split; assumption.
Qed.

(** X12: a transcript that [YoutubeTranscriptLoader.load] returns after a
    translation is a single line: it holds no line feed, and it is not
    blank. *)
Theorem translated_transcript_is_one_line (w : World) (url vid : str)
    (tl : TranscriptList) (t : Transcript) (segments : list Segment)
    (raw : str) (s : State) :
  extract_video_id w url = Return (Some vid) ->
  Py.truthy vid = true ->
  list_transcripts w vid = Return tl ->
  no_english_track tl ->
  generated_candidate tl t ->
  fetch_result t = Return segments ->
  translation_text w segments = Some raw ->
  Py.blank raw = false ->
  exists transcript,
    fst (YoutubeTranscriptLoader.load w url s) = Return (VideoResult transcript)
    /\ has_LF transcript = false
    /\ Py.blank transcript = false.
Proof.
  intros Hx Hv Hl Hn Hc Hf Hraw Hb.
  rewrite (load_translated w url vid tl t segments Hx Hv Hl Hn Hc Hf s).
  rewrite Hraw. simpl.
  pose proof (rebuild_untimed_nonblank (Py.strip raw)) as Hnb.
  pose proof (rebuild_texts (Py.strip raw)) as Htexts.
  destruct (rebuild (Py.strip raw)) as [|seg segs] eqn:Hr.
  - apply rebuild_strip_nil_iff in Hr. congruence.
  - eexists. split; [reflexivity|]. split.
    + apply join_no_LF. rewrite Htexts.
      apply List.Forall_forall. intros line Hin.
      apply List.filter_In in Hin as [Hin _].
      pose proof (split_lines_no_LF (Py.strip raw)) as Hall.
      rewrite List.Forall_forall in Hall. apply Hall, Hin.
    + simpl. apply join_not_blank.
      inversion Hnb as [|? ? (_ & _ & Hseg) _]; subst. exact Hseg.
Qed.

Lemma translated_transcript_is_one_line_witness :
  exists transcript,
    fst (YoutubeTranscriptLoader.load
           (Examples.spanish_world Scenarios.wide_answer)
           Examples.url Examples.s0) = Return (VideoResult transcript)
    /\ has_LF transcript = false
    /\ Py.blank transcript = false.
Proof.
  apply (translated_transcript_is_one_line
           (Examples.spanish_world Scenarios.wide_answer) Examples.url
           Examples.vid Examples.spanish_tracks Examples.es_generated
           Examples.hola Scenarios.wide_answer Examples.s0).
  - reflexivity.
  - reflexivity.
  - reflexivity.
  - split; reflexivity.
  - reflexivity.
  - reflexivity.
  - reflexivity.
  - reflexivity.
Defined.

(** X13: when the fetch of the English track raises [NoTranscriptFound],
    [YoutubeTranscriptLoader.load] goes on as if there were no English
    track: it fetches the first generated candidate track and returns its
    translation, after two fetches and one call of the model. *)
Theorem english_fetch_not_found_falls_back (w : World) (url vid : str)
    (tl : TranscriptList) (t t' : Transcript) (e : PyExc)
    (segments : list Segment) (raw : str) (s : State) :
  extract_video_id w url = Return (Some vid) ->
  Py.truthy vid = true ->
  list_transcripts w vid = Return tl ->
  english_track tl t ->
  fetch_result t = Raise e ->
  exc_class e = NoTranscriptFound ->
  generated_candidate tl t' ->
  fetch_result t' = Return segments ->
  translation_text w segments = Some raw ->
  Py.blank raw = false ->
  YoutubeTranscriptLoader.load w url s
  = (Return (VideoResult (Py.join " " (map text (rebuild (Py.strip raw))))),
     after s [CallVideoId url; CallListTranscripts vid;
              CallFetch (language_code t) (is_generated t);
              Log logger INFO "Found non-English transcript. Translating...";
              CallFetch (language_code t') (is_generated t');
              CallGenerateContent (prompt_of segments)]).
Proof.
  intros Hx Hv Hl Ht He Hc Hg Hf Hraw Hb.
  assert (Hfetch :
            _fetch_transcript w vid (after s [CallVideoId url])
            = (Return (Some (rebuild (Py.strip raw))),
               after s [CallVideoId url; CallListTranscripts vid;
                        CallFetch (language_code t) (is_generated t);
                        Log logger INFO
                          "Found non-English transcript. Translating...";
                        CallFetch (language_code t') (is_generated t');
                        CallGenerateContent (prompt_of segments)])).
  { unfold _fetch_transcript, TranscriptApi.fetch. run.
    rewrite Hl, (find_english w tl t Ht). run. rewrite He.
    unfold is_NoTranscriptFound. rewrite Hc.
    rewrite (handle_translates w tl t' segments _ Hg Hf).
    rewrite translate_transcript_run, Hraw.
    assert (Hnone : translation_failure w segments = None).
    { unfold translation_text in Hraw. unfold translation_failure.
      destruct (generate_content w (prompt_of segments)) as [response|];
        [|discriminate].
      destruct (response_text response); [reflexivity|discriminate]. }
    rewrite Hnone. simpl. rewrite !after_after. reflexivity. }
  rewrite (load_with_id w url vid s _ _ Hx Hv Hfetch).
  destruct (rebuild (Py.strip raw)) eqn:Hr; [|reflexivity].
  apply rebuild_strip_nil_iff in Hr. congruence.
Qed.

Lemma english_fetch_not_found_falls_back_witness :
  fst (YoutubeTranscriptLoader.load
         (Scenarios.tracks_world
            (Scenarios.broken_english_tracks Scenarios.not_found)
            (Return (MkResponse (Return Examples.answer))))
         Examples.url Examples.s0)
  = Return (VideoResult "hello world").
Proof.
  rewrite (english_fetch_not_found_falls_back
             (Scenarios.tracks_world
                (Scenarios.broken_english_tracks Scenarios.not_found)
                (Return (MkResponse (Return Examples.answer))))
             Examples.url Examples.vid
             (Scenarios.broken_english_tracks Scenarios.not_found)
             (Scenarios.en_broken Scenarios.not_found) Examples.es_generated
             Scenarios.not_found Examples.hola Examples.answer Examples.s0).
  - reflexivity.
  - reflexivity.
  - reflexivity.
  - reflexivity.
  - left. reflexivity.
  - reflexivity.
  - reflexivity.
  - reflexivity.
  - reflexivity.
  - reflexivity.
  - reflexivity.
Defined.

(** X14: when the fetch of the English track raises anything but
    [NoTranscriptFound], [YoutubeTranscriptLoader.load] gives up at once: it
    logs the error, tries no generated track, does not call the model, and
    raises [TranscriptionError]. *)
Theorem english_fetch_error_stops (w : World) (url vid : str)
    (tl : TranscriptList) (t : Transcript) (e : PyExc) (s : State) :
  extract_video_id w url = Return (Some vid) ->
  Py.truthy vid = true ->
  list_transcripts w vid = Return tl ->
  english_track tl t ->
  fetch_result t = Raise e ->
  exc_class e <> NoTranscriptFound ->
  YoutubeTranscriptLoader.load w url s
  = (Raise (MkExc TranscriptionError "No transcript available"),
     after s [CallVideoId url; CallListTranscripts vid;
              CallFetch (language_code t) (is_generated t);
              Log logger ERROR
                ((if is_transcript_error e then "Transcript error: "
                  else "Unexpected error: ") +:+ exc_msg e)]).
Proof.
  intros Hx Hv Hl Ht He Hc.
  apply (load_with_id w url vid s _ None Hx Hv).
  unfold _fetch_transcript, TranscriptApi.fetch. run.
  rewrite Hl, (find_english w tl t Ht). run. rewrite He.
  unfold is_NoTranscriptFound, is_transcript_error.
  destruct (exc_class e) eqn:Hcls; try contradiction; simpl;
    rewrite ?Hcls; simpl; rewrite ?after_after; reflexivity.
Qed.

Lemma english_fetch_error_stops_witness :
  YoutubeTranscriptLoader.load
    (Scenarios.tracks_world
       (Scenarios.broken_english_tracks Examples.unreachable)
       (Return (MkResponse (Return Examples.answer))))
    Examples.url Examples.s0
  = (Raise (MkExc TranscriptionError "No transcript available"),
     after Examples.s0
       [CallVideoId Examples.url; CallListTranscripts Examples.vid;
        CallFetch "en" false;
        Log logger ERROR "Unexpected error: connection refused"]).
Proof.
  apply (english_fetch_error_stops
           (Scenarios.tracks_world
              (Scenarios.broken_english_tracks Examples.unreachable)
              (Return (MkResponse (Return Examples.answer))))
           Examples.url Examples.vid
           (Scenarios.broken_english_tracks Examples.unreachable)
           (Scenarios.en_broken Examples.unreachable)
           Examples.unreachable Examples.s0).
  - reflexivity.
  - reflexivity.
  - reflexivity.
  - left. reflexivity.
  - reflexivity.
  - discriminate.
Defined.

(** X15: only generated tracks are translated.  When the video has no
    manual English track and no generated track at all, whatever manual
    tracks it has in other languages, [YoutubeTranscriptLoader.load] fetches
    nothing, does not call the model, and raises [TranscriptionError]. *)
Theorem manual_tracks_are_not_translated (w : World) (url vid : str)
    (tl : TranscriptList) (s : State) :
  extract_video_id w url = Return (Some vid) ->
  Py.truthy vid = true ->
  list_transcripts w vid = Return tl ->
  manually_created_transcripts tl !! "en" = None ->
  generated_transcripts tl = ∅ ->
  YoutubeTranscriptLoader.load w url s
  = (Raise (MkExc TranscriptionError "No transcript available"),
     after s [CallVideoId url; CallListTranscripts vid;
              Log logger ERROR
                ("Error handling non-English transcript: "
                 +:+ no_transcript_found_msg w (video_id tl) candidates)]).
Proof.
  intros Hx Hv Hl Hm Hg.
  apply (load_with_id w url vid s _ None Hx Hv).
  assert (Hn : no_english_track tl).
  { split; [exact Hm|]. rewrite Hg. apply lookup_empty. }
  rewrite (fetch_no_english w vid tl _ Hl Hn).
  rewrite handle_not_found.
  - rewrite !after_after. reflexivity.
  - apply first_match_none. rewrite Hg.
    apply List.Forall_forall. intros c _. apply lookup_empty.
Qed.

Lemma manual_tracks_are_not_translated_witness :
  YoutubeTranscriptLoader.load
    (Scenarios.tracks_world Examples.italian_tracks
       (Return (MkResponse (Return Examples.answer))))
    Examples.url Examples.s0
  = (Raise (MkExc TranscriptionError "No transcript available"),
     after Examples.s0
       [CallVideoId Examples.url; CallListTranscripts Examples.vid;
        Log logger ERROR
          "Error handling non-English transcript: No transcripts were found"]).
Proof.
  apply (manual_tracks_are_not_translated
           (Scenarios.tracks_world Examples.italian_tracks
              (Return (MkResponse (Return Examples.answer))))
           Examples.url Examples.vid Examples.italian_tracks Examples.s0);
    reflexivity.
Defined.

Lemma earliest_first_match (codes : list str) (g : gmap str Transcript)
    (c : str) (t : Transcript) :
  earliest codes g c t -> TranscriptApi.first_match codes [g] = Some t.
Proof.
  intros (pre & post & -> & Hpre & Hc).
  induction Hpre as [|c' pre Hc' _ IH]; simpl.
  - rewrite Hc. reflexivity.
  - rewrite Hc'. exact IH.
Qed.

(** X16: among the generated tracks, the one translated is that of the
    earliest language of the list [en, ja, ko, es, fr, de, hi] that has one:
    with no English track, [YoutubeTranscriptLoader.load] fetches that track
    and no other, and sends its texts to the model. *)
Theorem earliest_candidate_is_translated (w : World) (url vid c : str)
    (tl : TranscriptList) (t : Transcript) (segments : list Segment)
    (s : State) :
  extract_video_id w url = Return (Some vid) ->
  Py.truthy vid = true ->
  list_transcripts w vid = Return tl ->
  no_english_track tl ->
  earliest candidates (generated_transcripts tl) c t ->
  fetch_result t = Return segments ->
  exists evs,
    snd (YoutubeTranscriptLoader.load w url s) = after s evs
    /\ List.filter is_fetch evs
       = [CallFetch (language_code t) (is_generated t)]
    /\ List.filter is_generate_content evs
       = [CallGenerateContent (prompt_of segments)].
Proof.
  intros Hx Hv Hl Hn He Hf.
  rewrite (load_translated w url vid tl t segments Hx Hv Hl Hn
             (earliest_first_match _ _ _ _ He) Hf s).
  eexists. split; [reflexivity|].
  destruct (translation_failure w segments); split; reflexivity.
Qed.

Lemma earliest_candidate_is_translated_witness :
  exists evs,
    snd (YoutubeTranscriptLoader.load
           (Scenarios.tracks_world Scenarios.hindi_japanese_tracks
              (Return (MkResponse (Return Examples.answer))))
           Examples.url Examples.s0) = after Examples.s0 evs
    /\ List.filter is_fetch evs = [CallFetch "ja" true]
    /\ List.filter is_generate_content evs
       = [CallGenerateContent (prompt_of Examples.hello)].
Proof.
  apply (earliest_candidate_is_translated
           (Scenarios.tracks_world Scenarios.hindi_japanese_tracks
              (Return (MkResponse (Return Examples.answer))))
           Examples.url Examples.vid "ja" Scenarios.hindi_japanese_tracks
           Scenarios.ja_generated Examples.hello Examples.s0).
  - reflexivity.
  - reflexivity.
  - reflexivity.
  - split; reflexivity.
  - exists ["en"], ["ko"; "es"; "fr"; "de"; "hi"].
    split; [reflexivity|]. split; [|reflexivity].
    constructor; [reflexivity|constructor].
  - reflexivity.
Defined.

(** The state after [YoutubeTranscriptLoader.load] is the state before it
    with more events. *)
Lemma youtube_load_is_frugal_files (w : World) (url : str) (s : State) :
  exists evs, snd (YoutubeTranscriptLoader.load w url s) = after s evs.
Proof.
  unfold YoutubeTranscriptLoader.load, bind. rewrite get_video_id_run.
  destruct (extract_video_id w url) as [[vid|]|e']; simpl;
    try (eexists; reflexivity).
  destruct (Py.truthy vid); simpl; [|eexists; reflexivity].
  destruct (fetch_shape w vid (after s [CallVideoId url]))
    as (r & evs & -> & _).
  rewrite after_after.
  destruct r as [[|seg segs]|]; simpl; eexists; reflexivity.
Qed.

(** ** The scripts *)

(** Unfolds the operations of a script. *)
Ltac script :=
  unfold Script.try_except, Script.bind, Script.ret, Script.raise,
    Script.run_loader, Script.print, Script.write_out, Script.count;
  simpl.

Section ScriptFacts.

Variable w : World.
Variable rt : Script.Runtime.

Lemma after_nothing (s : State) : after s [] = s.
Proof. destruct s. unfold after. simpl. rewrite app_nil_r. reflexivity. Qed.

Lemma after_cons (s : State) (ev : Event) (evs : list Event) :
  after (after s [ev]) evs = after s (ev :: evs).
Proof. rewrite after_after. reflexivity. Qed.

Lemma audio_init_without_key (s : State) :
  Py.truthy_opt (environ w !! "ASSEMBLY_API_KEY") = false ->
  AudioLoader.__init__ w None s
  = (Raise (MkExc DocumentLoaderError "Assembly AI API key not found"), s).
Proof.
  unfold AudioLoader.__init__, AudioLoader.api_key_or_env. simpl.
  destruct (environ w !! "ASSEMBLY_API_KEY") as [k|]; simpl;
    [intros ->|]; reflexivity.
Qed.

Lemma audio_init_with_key (s : State) (k : str) :
  environ w !! "ASSEMBLY_API_KEY" = Some k ->
  Py.truthy k = true ->
  AudioLoader.__init__ w None s = (Return (AudioLoader.Mk k), s).
Proof.
  unfold AudioLoader.__init__, AudioLoader.api_key_or_env. simpl.
  intros -> ->. reflexivity.
Qed.

(** The loop answers the queries [qs] and goes on with the lines after
    them. *)
Lemma loop_answers (context : str) (qs tail : list str) :
  Forall (Script.answered w rt) qs ->
  forall p,
    Script.query_loop w rt context (qs ++ tail) p
    = Script.query_loop w rt context tail
        {| Script.loaders :=
             after (Script.loaders p) (map CallGenerateContent qs);
           Script.stdin := match qs with [] => Script.stdin p | _ => tail end;
           Script.stdout := Script.stdout p ++ Script.dialogue w rt qs;
           Script.counted := Script.counted p ++ Script.answers w qs |}.
Proof.
  induction 1 as [|q qs (Hq & response & answer & tokens & Hg & Ht & Hc) _ IH];
    intros p.
  - simpl. rewrite after_nothing, !app_nil_r. destruct p. reflexivity.
  - change ((q :: qs) ++ tail) with (q :: (qs ++ tail)).
    unfold Script.query_loop at 1. fold Script.query_loop.
    apply str_eqb_neq in Hq. rewrite Hq.
    script. unfold call, emit, lift, bind, ret. simpl.
    rewrite Hg. simpl. rewrite Ht. simpl. rewrite Hc.
    rewrite IH. simpl. rewrite ?Hg, ?Ht, ?Hc.
    rewrite after_cons.
    f_equal. f_equal.
    + destruct qs; reflexivity.
    + rewrite <- !app_assoc. reflexivity.
    + rewrite <- !app_assoc. reflexivity.
Qed.

Lemma loop_exit (context : str) (rest : list str) (p : Script.Proc) :
  Script.query_loop w rt context ("exit" :: rest) p
  = (Return tt,
     {| Script.loaders := Script.loaders p;
        Script.stdin := rest;
        Script.stdout := Script.stdout p ++ ["Query: "];
        Script.counted := Script.counted p |}).
Proof. reflexivity. Qed.

Lemma loop_eof (context : str) (p : Script.Proc) :
  Script.query_loop w rt context [] p
  = (Raise Script.EOFError,
     {| Script.loaders := Script.loaders p;
        Script.stdin := Script.stdin p;
        Script.stdout := Script.stdout p ++ ["Query: "];
        Script.counted := Script.counted p |}).
Proof. reflexivity. Qed.

End ScriptFacts.

(** X17: the loop of [main.py] sends the model each query as it was typed,
    nothing else: for queries that are all answered and followed by "exit",
    the calls of the model are exactly these queries in order, whatever the
    context built from the loaded sources; the lines after "exit" are left
    unread. *)
Theorem query_loop_sends_bare_queries (w : World) (rt : Script.Runtime)
    (context : str) (qs rest : list str) (p : Script.Proc) :
  Forall (Script.answered w rt) qs ->
  Script.stdin p = qs ++ "exit" :: rest ->
  Script.query_loop w rt context (Script.stdin p) p
  = (Return tt,
     {| Script.loaders :=
          after (Script.loaders p) (map CallGenerateContent qs);
        Script.stdin := rest;
        Script.stdout :=
          Script.stdout p ++ Script.dialogue w rt qs ++ ["Query: "];
        Script.counted := Script.counted p ++ Script.answers w qs |}).
Proof.
  intros Hq Hin. rewrite Hin.
  rewrite (loop_answers w rt context qs ("exit" :: rest) Hq p), loop_exit.
  simpl. rewrite <- app_assoc. reflexivity.
Qed.

Lemma query_loop_sends_bare_queries_witness :
  Script.query_loop (Sessions.working_world Sessions.both_keys)
    Sessions.runtime "the loaded context"
    ["what is RAG"; "exit"; "never read"]
    (Sessions.fresh ["what is RAG"; "exit"; "never read"])
  = (Return tt,
     {| Script.loaders :=
          after Examples.s0 [CallGenerateContent "what is RAG"];
        Script.stdin := ["never read"];
        Script.stdout :=
          ["Query: "; "an answer" +:+ Py.nl;
           "Tokens: total_tokens: 2" +:+ Py.nl; "Query: "];
        Script.counted := ["an answer"] |}).
Proof.
  apply (query_loop_sends_bare_queries
           (Sessions.working_world Sessions.both_keys) Sessions.runtime
           "the loaded context" ["what is RAG"] ["never read"]
           (Sessions.fresh ["what is RAG"; "exit"; "never read"])).
  - constructor; [|constructor].
    split; [discriminate|].
    exists (MkResponse (Return "an answer")), "an answer", "total_tokens: 2".
    repeat split; reflexivity.
  - reflexivity.
Defined.

(** X18: when the standard input ends before "exit", the loop of [main.py]
    answers every query and then ends with [EOFError], raised by the
    [input] that finds no line. *)
Theorem query_loop_without_exit_ends_in_EOFError (w : World)
    (rt : Script.Runtime) (context : str) (qs : list str)
    (p : Script.Proc) :
  Forall (Script.answered w rt) qs ->
  Script.stdin p = qs ->
  Script.query_loop w rt context (Script.stdin p) p
  = (Raise Script.EOFError,
     {| Script.loaders :=
          after (Script.loaders p) (map CallGenerateContent qs);
        Script.stdin := [];
        Script.stdout :=
          Script.stdout p ++ Script.dialogue w rt qs ++ ["Query: "];
        Script.counted := Script.counted p ++ Script.answers w qs |}).
Proof.
  intros Hq Hin. rewrite Hin.
  rewrite <- (app_nil_r qs) at 1.
  rewrite (loop_answers w rt context qs [] Hq p), loop_eof.
  simpl. rewrite <- app_assoc.
  destruct qs; [rewrite Hin|]; reflexivity.
Qed.

Lemma query_loop_without_exit_ends_in_EOFError_witness :
  Script.query_loop (Sessions.working_world Sessions.both_keys)
    Sessions.runtime "the loaded context" ["what is RAG"]
    (Sessions.fresh ["what is RAG"])
  = (Raise Script.EOFError,
     {| Script.loaders :=
          after Examples.s0 [CallGenerateContent "what is RAG"];
        Script.stdin := [];
        Script.stdout :=
          ["Query: "; "an answer" +:+ Py.nl;
           "Tokens: total_tokens: 2" +:+ Py.nl; "Query: "];
        Script.counted := ["an answer"] |}).
Proof.
  apply (query_loop_without_exit_ends_in_EOFError
           (Sessions.working_world Sessions.both_keys) Sessions.runtime
           "the loaded context" ["what is RAG"]
           (Sessions.fresh ["what is RAG"])).
  - constructor; [|constructor].
    split; [discriminate|].
    exists (MkResponse (Return "an answer")), "an answer", "total_tokens: 2".
    repeat split; reflexivity.
  - reflexivity.
Defined.

(** X19: the loop of [main.py] has no handler: when the model raises on a
    query, the exception ends the script as it is, after the prompt was
    written and the line read; the lines that follow are never read. *)
Theorem query_failure_ends_the_script (w : World) (rt : Script.Runtime)
    (context q : str) (rest : list str) (p : Script.Proc) (e : PyExc) :
  q <> "exit" ->
  generate_content w q = Raise e ->
  Script.query_loop w rt context (q :: rest) p
  = (Raise e,
     {| Script.loaders := after (Script.loaders p) [CallGenerateContent q];
        Script.stdin := rest;
        Script.stdout := Script.stdout p ++ ["Query: "];
        Script.counted := Script.counted p |}).
Proof.
  intros Hq He. unfold Script.query_loop.
  apply str_eqb_neq in Hq. rewrite Hq.
  script. unfold call, emit, lift, bind, ret. simpl. rewrite He. reflexivity.
Qed.

Lemma query_failure_ends_the_script_witness :
  Script.query_loop
    (Examples.env_world Sessions.both_keys) Sessions.runtime
    "the loaded context" ["what is RAG"; "exit"]
    (Sessions.fresh ["what is RAG"; "exit"])
  = (Raise Examples.unreachable,
     {| Script.loaders :=
          after Examples.s0 [CallGenerateContent "what is RAG"];
        Script.stdin := ["exit"];
        Script.stdout := ["Query: "];
        Script.counted := [] |}).
Proof.
  apply (query_failure_ends_the_script
           (Examples.env_world Sessions.both_keys) Sessions.runtime
           "the loaded context" "what is RAG" ["exit"]
           (Sessions.fresh ["what is RAG"; "exit"]) Examples.unreachable).
  - discriminate.
  - reflexivity.
Defined.

(** X20: without a GEMINI_API_KEY in the environment (absent or empty),
    [main.py] ends in the import of the loaders with [ValueError]: no loader
    is made, no call goes out, nothing is read or written. *)
Theorem main_py_needs_gemini_key (w : World) (rt : Script.Runtime)
    (src : Script.Sources) (p : Script.Proc) :
  Py.truthy_opt (environ w !! "GEMINI_API_KEY") = false ->
  Script.main_py w rt src p
  = (Raise (MkExc (OtherException "ValueError")
              "GEMINI_API_KEY environment variable not set"), p).
Proof.
  intros Hk. unfold Script.main_py, Script.import_loaders, Script.bind.
  rewrite Hk. reflexivity.
Qed.

Lemma main_py_needs_gemini_key_witness :
  Script.main_py (Sessions.working_world ∅) Sessions.runtime Sessions.sources
    (Sessions.fresh ["exit"])
  = (Raise (MkExc (OtherException "ValueError")
              "GEMINI_API_KEY environment variable not set"),
     Sessions.fresh ["exit"]).
Proof.
  apply (main_py_needs_gemini_key (Sessions.working_world ∅)
           Sessions.runtime Sessions.sources (Sessions.fresh ["exit"])).
  reflexivity.
Defined.

(** X21: [main.py] makes all its loaders before it loads anything.  With a
    GEMINI_API_KEY but no ASSEMBLY_API_KEY (absent or empty) it ends with
    [DocumentLoaderError] "Assembly AI API key not found" before any source
    is loaded, the video and the page included, which need no such key. *)
Theorem main_py_needs_assembly_key (w : World) (rt : Script.Runtime)
    (src : Script.Sources) (p : Script.Proc) :
  Py.truthy_opt (environ w !! "GEMINI_API_KEY") = true ->
  Py.truthy_opt (environ w !! "ASSEMBLY_API_KEY") = false ->
  Script.main_py w rt src p
  = (Raise (MkExc DocumentLoaderError "Assembly AI API key not found"), p).
Proof.
  intros Hg Ha. unfold Script.main_py, Script.import_loaders.
  rewrite Hg. script. rewrite (audio_init_without_key w _ Ha).
  destruct p. reflexivity.
Qed.

Lemma main_py_needs_assembly_key_witness :
  Script.main_py (Sessions.working_world Sessions.gemini_key_only)
    Sessions.runtime Sessions.sources (Sessions.fresh ["exit"])
  = (Raise (MkExc DocumentLoaderError "Assembly AI API key not found"),
     Sessions.fresh ["exit"]).
Proof.
  apply (main_py_needs_assembly_key
           (Sessions.working_world Sessions.gemini_key_only)
           Sessions.runtime Sessions.sources (Sessions.fresh ["exit"]));
    reflexivity.
Defined.

(** X22: [main.py] does not catch what a loader raises.  When the load of
    the video raises, the script ends with that exception: the page, the
    document and the audio file are not loaded, no file is written, no query
    is read and nothing is printed. *)
Theorem main_py_stops_at_video_failure (w : World) (rt : Script.Runtime)
    (src : Script.Sources) (p : Script.Proc) (k : str) (e : PyExc) :
  Py.truthy_opt (environ w !! "GEMINI_API_KEY") = true ->
  environ w !! "ASSEMBLY_API_KEY" = Some k ->
  Py.truthy k = true ->
  fst (YoutubeTranscriptLoader.load w (Script.ytube_video_url src)
         (Script.loaders p)) = Raise e ->
  Script.main_py w rt src p
  = (Raise e,
     {| Script.loaders :=
          snd (YoutubeTranscriptLoader.load w (Script.ytube_video_url src)
                 (Script.loaders p));
        Script.stdin := Script.stdin p;
        Script.stdout := Script.stdout p;
        Script.counted := Script.counted p |})
  /\ files (snd (YoutubeTranscriptLoader.load w (Script.ytube_video_url src)
                   (Script.loaders p)))
     = files (Script.loaders p).
Proof.
  intros Hg Ha Hk He. split.
  - unfold Script.main_py, Script.import_loaders.
    rewrite Hg. script. rewrite (audio_init_with_key w _ k Ha Hk). simpl.
    destruct (YoutubeTranscriptLoader.load w (Script.ytube_video_url src)
                (Script.loaders p)) as [r s'].
    simpl in He. rewrite He. reflexivity.
  - destruct (youtube_load_is_frugal_files w (Script.ytube_video_url src)
                (Script.loaders p)) as (evs & ->). reflexivity.
Qed.

Lemma main_py_stops_at_video_failure_witness :
  Script.main_py (Sessions.captionless_world Sessions.both_keys)
    Sessions.runtime Sessions.sources (Sessions.fresh ["what is RAG"; "exit"])
  = (Raise (MkExc TranscriptionError "No transcript available"),
     {| Script.loaders :=
          after Examples.s0
            [CallVideoId Examples.url; CallListTranscripts Examples.vid;
             Log logger ERROR
               "Transcript error: Subtitles are disabled for this video"];
        Script.stdin := ["what is RAG"; "exit"];
        Script.stdout := [];
        Script.counted := [] |}).
Proof.
  apply (main_py_stops_at_video_failure
           (Sessions.captionless_world Sessions.both_keys)
           Sessions.runtime Sessions.sources
           (Sessions.fresh ["what is RAG"; "exit"]) "a-key"
           (MkExc TranscriptionError "No transcript available"));
    reflexivity.
Defined.

(** X23: without an ASSEMBLY_API_KEY in the environment (absent or empty),
    [main()] of [loaders.py] prints the single line
    "Error: Assembly AI API key not found" and returns: nothing is loaded
    and no call goes out. *)
Theorem main_without_assembly_key (w : World) (rt : Script.Runtime)
    (src : Script.Sources) (p : Script.Proc) :
  Py.truthy_opt (environ w !! "ASSEMBLY_API_KEY") = false ->
  Script.main w rt src p
  = (Return tt,
     {| Script.loaders := Script.loaders p;
        Script.stdin := Script.stdin p;
        Script.stdout :=
          Script.stdout p
          ++ ["Error: Assembly AI API key not found" +:+ Py.nl];
        Script.counted := Script.counted p |}).
Proof.
  intros Ha. unfold Script.main, Script.main_body. script.
  rewrite (audio_init_without_key w _ Ha). reflexivity.
Qed.

Lemma main_without_assembly_key_witness :
  Script.main (Sessions.working_world Sessions.gemini_key_only)
    Sessions.runtime Sessions.sources (Sessions.fresh [])
  = (Return tt,
     {| Script.loaders := Examples.s0;
        Script.stdin := [];
        Script.stdout := ["Error: Assembly AI API key not found" +:+ Py.nl];
        Script.counted := [] |}).
Proof.
  apply (main_without_assembly_key
           (Sessions.working_world Sessions.gemini_key_only)
           Sessions.runtime Sessions.sources (Sessions.fresh [])).
  reflexivity.
Defined.

(** X24: [main()] of [loaders.py] loads the audio file first and stops at
    the first failure.  When the transcription fails, it prints the single
    line "Error: " followed by the message of the loader and returns: the
    document, the page and the video are not loaded, and no file is
    written. *)
Theorem main_stops_at_audio_failure (w : World) (rt : Script.Runtime)
    (src : Script.Sources) (p : Script.Proc) (k : str) (e : PyExc) :
  environ w !! "ASSEMBLY_API_KEY" = Some k ->
  Py.truthy k = true ->
  fst (AudioLoader.load w (AudioLoader.Mk k) (Script.audio_url src)
         (Script.loaders p)) = Raise e ->
  Script.main w rt src p
  = (Return tt,
     {| Script.loaders :=
          after (Script.loaders p) [CallAssemblyAI (Script.audio_url src) k];
        Script.stdin := Script.stdin p;
        Script.stdout :=
          Script.stdout p ++ ["Error: " +:+ exc_msg e +:+ Py.nl];
        Script.counted := Script.counted p |}).
Proof.
  intros Ha Hk He. unfold Script.main, Script.main_body. script.
  rewrite (audio_init_with_key w _ k Ha Hk). simpl.
  rewrite audio_load_run in He |- *. simpl in He |- *.
  destruct (assemblyai_load w (Script.audio_url src) k) as [[|d rest]|e'];
    simpl in He |- *; try discriminate He;
    injection He as <-; reflexivity.
Qed.

Lemma main_stops_at_audio_failure_witness :
  Script.main (Sessions.deaf_world Sessions.both_keys)
    Sessions.runtime Sessions.sources (Sessions.fresh [])
  = (Return tt,
     {| Script.loaders :=
          after Examples.s0 [CallAssemblyAI "./talk.mp3" "a-key"];
        Script.stdin := [];
        Script.stdout :=
          ["Error: Error transcribing audio: connection refused" +:+ Py.nl];
        Script.counted := [] |}).
Proof.
  apply (main_stops_at_audio_failure
           (Sessions.deaf_world Sessions.both_keys)
           Sessions.runtime Sessions.sources (Sessions.fresh []) "a-key"
           (MkExc DocumentLoaderError
              "Error transcribing audio: connection refused"));
    reflexivity.
Defined.

(** What the [try] block of [main] prints: its output only grows, and when
    the block comes to its end the last line gives the tokens. *)
Lemma main_body_output (w : World) (rt : Script.Runtime)
    (src : Script.Sources) (p p' : Script.Proc) (r : outcome unit) :
  Script.main_body w rt src p = (r, p') ->
  exists lines,
    Script.stdout p' = Script.stdout p ++ lines
    /\ (r = Return tt ->
        exists before tokens,
          lines
          = before ++ [("Gemini Tokens: " +:+ tokens +:+ ".") +:+ Py.nl]).
Proof.
  unfold Script.main_body, Script.getitem_text, Script.getitem_pages,
    Script.getitem_content, Script.getitem_transcript. script.
  repeat
    match goal with
    | |- context [let (_, _) := ?X in _] =>
        lazymatch X with
        | context [let (_, _) := _ in _] => fail
        | context [match _ with _ => _ end] => fail
        | _ => destruct X as [[?|?] ?]; simpl
        end
    | |- context [match ?a with
                  | AudioResult _ _ => _ | TextResult _ => _
                  | PdfResult _ _ => _ | WebResult _ => _
                  | VideoResult _ => _
                  end] => is_var a; destruct a; simpl
    | |- context [match Script.count_tokens ?a ?b with _ => _ end] =>
        destruct (Script.count_tokens a b); simpl
    end;
    intros [= <- <-]; simpl; rewrite <- ?app_assoc; simpl;
    try (exists []; rewrite app_nil_r; split; [reflexivity|discriminate]);
    try (eexists; split; [reflexivity|discriminate]).
  eexists. split; [reflexivity|]. intros _.
  eexists [_; _; _; _; _; _; _; _], _. reflexivity.
Qed.

(** X25: [main()] of [loaders.py] never raises, whatever the collaborators
    do, and never ends silently: its output grows, and its last line is
    either the token count ("Gemini Tokens: ...") or the report of the first
    failure ("Error: ..." or "Unexpected error: ..."). *)
Theorem main_always_reports (w : World) (rt : Script.Runtime)
    (src : Script.Sources) (p : Script.Proc) :
  exists p' before line,
    Script.main w rt src p = (Return tt, p')
    /\ Script.stdout p' = Script.stdout p ++ before ++ [line]
    /\ Script.is_report line = true.
Proof.
  unfold Script.main, Script.try_except.
  destruct (Script.main_body w rt src p) as [[[]|e] p1] eqn:Hb;
    destruct (main_body_output w rt src p p1 _ Hb) as (lines & Hout & Hlast).
  - destruct (Hlast eq_refl) as (before & tokens & ->).
    do 3 eexists. split; [reflexivity|]. split; [exact Hout|].
    unfold Script.is_report.
    rewrite (startswith_append "Gemini Tokens: " ((tokens +:+ ".") +:+ Py.nl)
             : Py.startswith (("Gemini Tokens: " +:+ tokens +:+ ".") +:+ Py.nl)
                 "Gemini Tokens: " = true).
    reflexivity.
  - destruct (Script.is_loader_error e); script;
      do 3 eexists; (split; [reflexivity|]); rewrite Hout, <- app_assoc;
      (split; [reflexivity|]); unfold Script.is_report.
    + rewrite (startswith_append "Error: " (exc_msg e +:+ Py.nl)
               : Py.startswith (("Error: " +:+ exc_msg e) +:+ Py.nl)
                   "Error: " = true).
      rewrite orb_true_r. reflexivity.
    + rewrite (startswith_append "Unexpected error: " (exc_msg e +:+ Py.nl)
               : Py.startswith (("Unexpected error: " +:+ exc_msg e) +:+ Py.nl)
                   "Unexpected error: " = true).
      apply orb_true_r.
Qed.

(** ** More on the text and PDF loader *)

(** X26: whatever the extraction does, the only exception
    [TextDocumentLoader.load] raises is a [DocumentLoaderError] whose
    message starts with "Error loading document: "; and a PDF in which the
    extraction finds no page is loaded all the same, with a page count of
    zero. *)
Theorem text_load_raises_loader_errors_only (w : World) (file_path : str)
    (s : State) :
  (forall e,
     fst (TextDocumentLoader.load w file_path s) = Raise e ->
     exc_class e = DocumentLoaderError
     /\ Py.startswith (exc_msg e) "Error loading document: " = true)
  /\ (Py.endswith file_path ".pdf" = true ->
      pypdf_load_and_split w file_path = Return [] ->
      fst (TextDocumentLoader.load w file_path s) = Return (PdfResult [] 0))
  /\ files (snd (TextDocumentLoader.load w file_path s)) = files s.
Proof.
  unfold TextDocumentLoader.load, TextDocumentLoader._load_pdf,
    TextDocumentLoader._load_text.
  destruct (Py.endswith file_path ".pdf"); run.
  - destruct (pypdf_load_and_split w file_path) as [pages|e']; simpl.
    + split; [discriminate|]. split; [|reflexivity].
      intros _ [= ->]. reflexivity.
    + split; [|split; [discriminate|reflexivity]].
      intros e [= <-]. split; [reflexivity|apply startswith_append].
  - destruct (text_loader_load w file_path) as [data|e']; simpl.
    + split; [discriminate|]. split; [discriminate|reflexivity].
    + split; [|split; [discriminate|reflexivity]].
      intros e [= <-]. split; [reflexivity|apply startswith_append].
Qed.

Lemma text_load_raises_loader_errors_only_witness :
  fst (TextDocumentLoader.load
         (Examples.file_world (Return []) (Raise Examples.unreachable))
         "empty.pdf" Examples.s0)
  = Return (PdfResult [] 0)
  /\ Py.startswith "Error loading document: connection refused"
       "Error loading document: " = true.
Proof.
  destruct (text_load_raises_loader_errors_only
              (Examples.file_world (Return []) (Raise Examples.unreachable))
              "empty.pdf" Examples.s0) as (_ & Hpdf & _).
  destruct (text_load_raises_loader_errors_only
              (Examples.file_world (Return []) (Raise Examples.unreachable))
              "notes.txt" Examples.s0) as (Herr & _ & _).
  split.
  - apply Hpdf; reflexivity.
  - apply (Herr (MkExc DocumentLoaderError
                   "Error loading document: connection refused")).
    reflexivity.
Defined.
